(** * Pinbasket: the image-candidate pipeline of the Pinterest scrapers

    A shallow embedding of the candidate collection, resolution
    normalisation, download planning and download verification code of

    - [src/pinterest_img_scraper.py]   (class [PinterestImageScraper]),
    - [src/pinterest_scraper.py]       (class [PinterestScraper]),
    - [src/pinterest_board_scraper.py] (class [PinterestBoardScraper]),

    together with the properties of that code.

    Conventions.  Python [str] values are Rocq [string]s (sequences of
    8-bit characters; URLs are ASCII).  Python [int]s are [Z].  A Python
    [set] is a [gset]; where the source iterates over a set
    ([list(self.image_urls)], [list(set(...))]) the iteration order is
    not fixed by Python, so it is an explicit input of the model.  The
    browser, the network, the image decoder and the file system are
    external; what they answer is an explicit input too. *)

From Stdlib Require Import ZArith Ascii String Sorted.
From stdpp Require Import gmap strings list sorting.

Local Open Scope Z_scope.

(** ** Python string operations used by the scrapers *)

Module PyStr.

(** [s.startswith(pat)] *)
Fixpoint startswith (s pat : string) : bool :=
  match pat, s with
  | EmptyString, _ => true
  | String _ _, EmptyString => false
  | String a pat', String b s' =>
      if Ascii.eqb a b then startswith s' pat' else false
  end.

(** [pat in s] *)
Fixpoint str_in (pat s : string) : bool :=
  startswith s pat ||
  match s with
  | EmptyString => false
  | String _ s' => str_in pat s'
  end.

(** [s[n:]] for [0 <= n] *)
Fixpoint str_drop (n : nat) (s : string) : string :=
  match n, s with
  | O, _ => s
  | S _, EmptyString => EmptyString
  | S n', String _ s' => str_drop n' s'
  end.

(** [s[:n]] for [0 <= n] *)
Fixpoint str_take (n : nat) (s : string) : string :=
  match n, s with
  | O, _ => EmptyString
  | S _, EmptyString => EmptyString
  | S n', String c s' => String c (str_take n' s')
  end.

Definition is_upper (c : ascii) : bool :=
  let n := nat_of_ascii c in (65 <=? n)%nat && (n <=? 90)%nat.

Definition lower_char (c : ascii) : ascii :=
  if is_upper c then ascii_of_nat (nat_of_ascii c + 32) else c.

(** [s.lower()] on ASCII text *)
Fixpoint lower (s : string) : string :=
  match s with
  | EmptyString => EmptyString
  | String c s' => String (lower_char c) (lower s')
  end.

(** [s.replace(old, new)] for a non-empty [old] (the only use in the
    source): every occurrence of [old], found left to right without
    overlap, is replaced.  [skip] counts the characters of the
    occurrence being replaced that are still to be passed over. *)
Fixpoint replace_from (old new : string) (skip : nat) (s : string) : string :=
  match s with
  | EmptyString => EmptyString
  | String c s' =>
      match skip with
      | S k => replace_from old new k s'
      | O =>
          if startswith s old
          then new +:+ replace_from old new (Nat.pred (String.length old)) s'
          else String c (replace_from old new O s')
      end
  end.

Definition replace (s old new : string) : string := replace_from old new O s.

(** [any(p in s for p in pats)] *)
Definition any_in (pats : list string) (s : string) : bool :=
  existsb (fun p => str_in p s) pats.

End PyStr.

Import PyStr.

(** ** The regular expression of [_convert_to_high_res]

    [re.search(r'(https://i\.pinimg\.com/)(\d+x/)(.+\.(?:jpg|jpeg|png|webp))', url)]

    The three groups are matched by hand.  Group 1 is a literal; group 2
    is the maximal run of digits (at least one) followed by [x/]; group 3
    is [.+] followed by a dot and one of the four extensions.  [.+] is
    greedy and does not match a newline, so group 3 ends at the last
    extension that can be reached without crossing a newline. *)

Module PinimgRegex.

Definition is_digit (c : ascii) : bool :=
  let n := nat_of_ascii c in (48 <=? n)%nat && (n <=? 57)%nat.

Definition is_newline (c : ascii) : bool := Ascii.eqb c "010"%char.

(** the number of leading digits of [s]: what [\d+] consumes *)
Fixpoint digits_len (s : string) : nat :=
  match s with
  | String c s' => if is_digit c then S (digits_len s') else O
  | EmptyString => O
  end.

(** [\.(?:jpg|jpeg|png|webp)] at the start of [s]: the matched length *)
Definition ext_len (s : string) : option nat :=
  if startswith s ".jpg" then Some 4%nat
  else if startswith s ".jpeg" then Some 5%nat
  else if startswith s ".png" then Some 4%nat
  else if startswith s ".webp" then Some 5%nat
  else None.

(** [.*\.(?:jpg|jpeg|png|webp)] at the start of [s], greedy: first try
    to let the dot-star take one more character, and only when that
    fails look for the extension here. *)
Fixpoint tail_len (s : string) : option nat :=
  match s with
  | EmptyString => None
  | String c s' =>
      match (if is_newline c then None else tail_len s') with
      | Some n => Some (S n)
      | None => ext_len s
      end
  end.

(** group 3, [.+\.(?:jpg|jpeg|png|webp)], at the start of [s] *)
Definition group3 (s : string) : option string :=
  match s with
  | EmptyString => None
  | String c s' =>
      if is_newline c then None
      else match tail_len s' with
           | Some n => Some (str_take (S n) s)
           | None => None
           end
  end.

Definition host : string := "https://i.pinimg.com/".

(** the whole pattern anchored at the start of [s]: groups 1, 2, 3 *)
Definition match_here (s : string) : option (string * string * string) :=
  if startswith s host then
    let r := str_drop (String.length host) s in
    let d := digits_len r in
    if (0 <? d)%nat && startswith (str_drop d r) "x/" then
      match group3 (str_drop (d + 2) r) with
      | Some g3 => Some (host, str_take (d + 2) r, g3)
      | None => None
      end
    else None
  else None.

(** [re.search]: the leftmost position at which the pattern matches *)
Fixpoint search (s : string) : option (string * string * string) :=
  match match_here s with
  | Some g => Some g
  | None =>
      match s with
      | EmptyString => None
      | String _ s' => search s'
      end
  end.

End PinimgRegex.

(** ** [PinterestImageScraper]: the run context

    The attributes of [self] that the collection and download code reads
    or writes.  [start_collecting], [inside_search_results],
    [relevant_image_ids] and [is_ad_search] are created by
    [start_scraping] before the response handler is installed, so the
    [hasattr] guards of the source always succeed. *)

Record PinterestImageScraper := {
  target : string;
  is_board : bool;
  min_width : Z;
  min_height : Z;
  limit : Z;
  image_urls : gset (string * bool);
  downloaded_count : Z;
  start_collecting : bool;
  inside_search_results : bool;
  relevant_image_ids : gset string;
  is_ad_search : bool
}.

(** [_convert_to_high_res]; [None] is Python's [None] (too small). *)
Definition _convert_to_high_res (self : PinterestImageScraper) (url : string)
  : option string :=
  if str_in "/originals/" url then Some url
  else if str_in "/60x60/" url || str_in "/75x75/" url then
    if (100 <? min_width self) || (100 <? min_height self) then None
    else Some url
  else if str_in "/236x/" url then Some (replace url "/236x/" "/originals/")
  else if str_in "/474x/" url then Some (replace url "/474x/" "/originals/")
  else if str_in "/736x/" url then Some (replace url "/736x/" "/originals/")
  else if str_in "/1200x/" url then Some (replace url "/1200x/" "/originals/")
  else match PinimgRegex.search url with
       | Some (g1, _, g3) => Some (g1 +:+ "originals/" +:+ g3)
       | None => Some url
       end.

(** ** The regular expression of the identifier harvest

    [re.finditer(r'"id":\s*"(\d+)"', text)]: the non-overlapping matches,
    left to right; each contributes its group 1 (the digits). *)

Module IdRegex.

Definition dquote : ascii := "034"%char.

(** [\s] on ASCII text *)
Definition is_space (c : ascii) : bool :=
  let n := nat_of_ascii c in
  ((9 <=? n)%nat && (n <=? 13)%nat) || ((28 <=? n)%nat && (n <=? 32)%nat).

Fixpoint spaces_len (s : string) : nat :=
  match s with
  | String c s' => if is_space c then S (spaces_len s') else O
  | EmptyString => O
  end.

(** the five characters [dquote i d dquote :] *)
Definition key : string :=
  String dquote (String "i" (String "d" (String dquote (String ":" EmptyString)))).

(** the pattern anchored at the start of [s]: group 1 and the length
    of the whole match *)
Definition match_here (s : string) : option (string * nat) :=
  if startswith s key then
    let r := str_drop 5 s in
    let w := spaces_len r in
    match str_drop w r with
    | String c r2 =>
        let d := PinimgRegex.digits_len r2 in
        if Ascii.eqb c dquote && (0 <? d)%nat
           && startswith (str_drop d r2) (String dquote EmptyString)
        then Some (str_take d r2, (5 + w + 1 + d + 1)%nat)
        else None
    | EmptyString => None
    end
  else None.

Fixpoint finditer_from (skip : nat) (s : string) : list string :=
  match s with
  | EmptyString => []
  | String _ s' =>
      match skip with
      | S k => finditer_from k s'
      | O =>
          match match_here s with
          | Some (g, n) => g :: finditer_from (Nat.pred n) s'
          | None => finditer_from O s'
          end
      end
  end.

Definition finditer (text : string) : list string := finditer_from O text.

End IdRegex.

(** ** [PinterestImageScraper]: construction and attribute updates *)

(** [__init__] with its default arguments, followed by the attributes
    that [start_scraping] creates before it installs the handler. *)
Definition new_scraper (target0 : string) (is_board0 : bool) : PinterestImageScraper :=
  {| target := target0;
     is_board := is_board0;
     min_width := 800;
     min_height := 800;
     limit := 50;
     image_urls := ∅;
     downloaded_count := 0;
     start_collecting := false;
     inside_search_results := false;
     relevant_image_ids := ∅;
     is_ad_search :=
       str_in "ad" (lower target0) || str_in "ads" (lower target0)
       || str_in "advert" (lower target0) |}.

Definition set_limits (self : PinterestImageScraper) (w h l : Z) : PinterestImageScraper :=
  {| target := target self; is_board := is_board self;
     min_width := w; min_height := h; limit := l;
     image_urls := image_urls self; downloaded_count := downloaded_count self;
     start_collecting := start_collecting self;
     inside_search_results := inside_search_results self;
     relevant_image_ids := relevant_image_ids self;
     is_ad_search := is_ad_search self |}.

Definition set_image_urls (self : PinterestImageScraper) (s : gset (string * bool))
  : PinterestImageScraper :=
  {| target := target self; is_board := is_board self;
     min_width := min_width self; min_height := min_height self; limit := limit self;
     image_urls := s; downloaded_count := downloaded_count self;
     start_collecting := start_collecting self;
     inside_search_results := inside_search_results self;
     relevant_image_ids := relevant_image_ids self;
     is_ad_search := is_ad_search self |}.

Definition set_start_collecting (self : PinterestImageScraper) (b : bool)
  : PinterestImageScraper :=
  {| target := target self; is_board := is_board self;
     min_width := min_width self; min_height := min_height self; limit := limit self;
     image_urls := image_urls self; downloaded_count := downloaded_count self;
     start_collecting := b;
     inside_search_results := inside_search_results self;
     relevant_image_ids := relevant_image_ids self;
     is_ad_search := is_ad_search self |}.

Definition set_inside_search_results (self : PinterestImageScraper) (b : bool)
  : PinterestImageScraper :=
  {| target := target self; is_board := is_board self;
     min_width := min_width self; min_height := min_height self; limit := limit self;
     image_urls := image_urls self; downloaded_count := downloaded_count self;
     start_collecting := start_collecting self;
     inside_search_results := b;
     relevant_image_ids := relevant_image_ids self;
     is_ad_search := is_ad_search self |}.

Definition set_relevant_image_ids (self : PinterestImageScraper) (s : gset string)
  : PinterestImageScraper :=
  {| target := target self; is_board := is_board self;
     min_width := min_width self; min_height := min_height self; limit := limit self;
     image_urls := image_urls self; downloaded_count := downloaded_count self;
     start_collecting := start_collecting self;
     inside_search_results := inside_search_results self;
     relevant_image_ids := s;
     is_ad_search := is_ad_search self |}.

Definition set_downloaded_count (self : PinterestImageScraper) (n : Z)
  : PinterestImageScraper :=
  {| target := target self; is_board := is_board self;
     min_width := min_width self; min_height := min_height self; limit := limit self;
     image_urls := image_urls self; downloaded_count := n;
     start_collecting := start_collecting self;
     inside_search_results := inside_search_results self;
     relevant_image_ids := relevant_image_ids self;
     is_ad_search := is_ad_search self |}.

(** ** [_handle_response]: the collector *)

(** One observed network exchange.  [text] is [await response.text()],
    [None] when that raises. *)
Record Response := {
  resource_type : string;
  status : Z;
  url : string;
  text : option string
}.

Definition search_terms (self : PinterestImageScraper) : list string :=
  lower (target self) ::
  (if is_ad_search self
   then ["ad"; "ads"; "advert"; "advertisement"; "marketing"] else []).

(** the identifiers harvested from the body of an [xhr] search response *)
Definition harvested_ids (self : PinterestImageScraper) (r : Response) : list string :=
  match text r with
  | None => []
  | Some t =>
      let term_found := existsb (fun term => str_in term (lower t)) (search_terms self) in
      if term_found
         && (str_in "pin_join" t || str_in "grid_item" t || str_in "closeup" t)
      then IdRegex.finditer t
      else []
  end.

(** the first [try] block: a [document] or [xhr] response of the search
    page switches [inside_search_results] on and may add identifiers *)
Definition note_search_response (self : PinterestImageScraper) (r : Response)
  : PinterestImageScraper :=
  if String.eqb (resource_type r) "document" || String.eqb (resource_type r) "xhr" then
    if existsb (fun term => str_in "search/pins" (url r) && str_in term (lower (url r)))
               (search_terms self)
    then
      let self1 := set_inside_search_results self true in
      if String.eqb (resource_type r) "xhr"
      then set_relevant_image_ids self1
             (list_to_set (harvested_ids self r) ∪ relevant_image_ids self1)
      else self1
    else self
  else self.

(** the value of the local [is_relevant] after its three updates *)
Definition is_relevant (self : PinterestImageScraper) (u : string) : bool :=
  is_ad_search self
  || existsb (fun pin_id => str_in pin_id u) (elements (relevant_image_ids self))
  || (negb (inside_search_results self) || is_board self).

Definition skip_patterns (self : PinterestImageScraper) : list string :=
  if is_ad_search self
  then ["/spinner/"; "/loading/"; "/error/"; "default_user"; "icon_"]
  else ["/icons/"; "/logo/"; "/favicon/"; "/avatar/"; "/profile/"; "/spinner/";
        "/loading/"; "/error/"; "default_"; "placeholder"; "/following/";
        "profile-image"; "avatar."; "user-image"; "default-user"; "icon_"].

(** the image branch up to the final [add]: the pair that is added to
    [image_urls], or [None] when the observation is dropped *)
Definition candidate_of (self : PinterestImageScraper) (u : string)
  : option (string * bool) :=
  let rel := is_relevant self u in
  if inside_search_results self && negb (is_board self) && negb (is_ad_search self)
     && negb (bool_decide (relevant_image_ids self = ∅)) && negb rel
  then None
  else if (str_in "/60x60/" u || str_in "/75x75/" u)
          && ((100 <? min_width self) || (100 <? min_height self))
  then None
  else if any_in [".jpg"; ".jpeg"; ".png"; ".webp"] (lower u)
          && any_in ["/originals/"; "/236x/"; "/474x/"; "/736x/"; "/1200x/"; "i.pinimg.com"] u
  then
    match _convert_to_high_res self u with
    | None => None
    | Some high_res_url =>
        if any_in (skip_patterns self) (lower u) then None
        else Some (high_res_url, rel)
    end
  else None.

Definition _handle_response (self : PinterestImageScraper) (r : Response)
  : PinterestImageScraper :=
  if negb (start_collecting self) then self
  else if negb (limit self =? 0) && (limit self * 3 <=? Z.of_nat (size (image_urls self)))
  then self
  else
    let self1 := note_search_response self r in
    if String.eqb (resource_type r) "image" && (status r =? 200) then
      match candidate_of self1 (url r) with
      | Some c => set_image_urls self1 ({[ c ]} ∪ image_urls self1)
      | None => self1
      end
    else self1.

(** a stream of observations, handled one after the other *)
Definition handle_all (self : PinterestImageScraper) (rs : list Response)
  : PinterestImageScraper :=
  foldl _handle_response self rs.

(** ** [_download_images]: the planner *)

(** the nested function [get_url_priority] *)
Definition get_url_priority (u : string) : Z :=
  if str_in "/originals/" u then 5
  else if str_in "/1200x/" u then 4
  else if str_in "/736x/" u then 3
  else if str_in "/474x/" u then 2
  else if str_in "/236x/" u then 1
  else 0.

(** [sorted(l, key=key, reverse=True)].  Python's sort is stable, also
    with [reverse=True]: the result is the one arrangement of [l] by
    descending key in which elements of equal key keep their order, and
    that is what this insertion sort computes. *)
Section Sorted.
Context {A : Type} (key : A → Z).

Fixpoint insert_desc (x : A) (l : list A) : list A :=
  match l with
  | [] => [x]
  | y :: l' => if key x <? key y then y :: insert_desc x l' else x :: y :: l'
  end.

Fixpoint sorted_reverse (l : list A) : list A :=
  match l with
  | [] => []
  | x :: l' => insert_desc x (sorted_reverse l')
  end.

(** the order of the result: [y] may stand after [x] *)
Definition key_ge (x y : A) : Prop := key y ≤ key x.
End Sorted.

(** the slice [l[:n]] of a list, for any integer [n]: a negative [n]
    counts from the end *)
Definition slice_to {A : Type} (l : list A) (n : Z) : list A :=
  if 0 <=? n then take (Z.to_nat n) l
  else take (length l - Z.to_nat (- n)) l.

Section Planner.

(** [list(set(l))]: Python leaves the order open; the enumeration is
    whatever the interpreter produces. *)
Variable list_of_set : list string → list string.

Definition relevant_urls (all_urls : list (string * bool)) : list string :=
  (filter (λ p, snd p = true) all_urls).*1.

Definition other_urls (all_urls : list (string * bool)) : list string :=
  (filter (λ p, snd p = false) all_urls).*1.

(** the list [unique_urls]; [all_urls] is [list(self.image_urls)] *)
Definition unique_urls (self : PinterestImageScraper)
    (all_urls : list (string * bool)) : list string :=
  if is_ad_search self
  then list_of_set (relevant_urls all_urls ++ other_urls all_urls)
  else if limit self <=? Z.of_nat (length (relevant_urls all_urls))
  then relevant_urls all_urls
  else
    let needed_count := limit self - Z.of_nat (length (relevant_urls all_urls)) in
    relevant_urls all_urls ++ slice_to (other_urls all_urls) needed_count.

(** the list [urls_to_download]; empty when the function returns
    early because nothing was found *)
Definition urls_to_download (self : PinterestImageScraper)
    (all_urls : list (string * bool)) : list string :=
  match unique_urls self all_urls with
  | [] => []
  | us =>
      let sorted_urls := sorted_reverse get_url_priority us in
      if negb (limit self =? 0) then slice_to sorted_urls (limit self)
      else sorted_urls
  end.

End Planner.

(** ** [_download_image]: fetching and verifying one image *)

(** What the outside world answers during one download. *)
Inductive goto_result :=
| GotoRaises                                   (* the browser launch or [page.goto] raises *)
| GotoNone                                     (* [page.goto] returns [None] *)
| GotoResponse (status : Z) (content_type : string).
                                               (* [headers.get('content-type', '')] *)

Inductive write_result :=
| WriteOk                                      (* the file is created and written *)
| OpenRaises                                   (* [aiofiles.open] raises: no file *)
| WriteRaises.                                 (* the file is created, [f.write] raises *)

Record FetchEnv := {
  goto : goto_result;
  body_ok : bool;                              (* [response.body()] returns *)
  decode_memory : option (Z * Z);              (* [Image.open(BytesIO(..)).size]; [None]: raises *)
  write : write_result;
  decode_file : option (Z * Z);                (* [Image.open(filepath).size]; [None]: raises *)
  remove_ok : bool;                            (* [os.remove] returns *)
  close_ok : bool                              (* [browser.close()] returns *)
}.

(** [PinterestImageScraper._download_image]: the result and the files on
    disk afterwards.  An exception inside the inner [try] is caught by
    [except Exception as e], after which the function reaches its last
    statement, [return True]. *)
Definition _download_image (self : PinterestImageScraper) (env : FetchEnv)
    (filepath : string) (disk : gset string) : bool * gset string :=
  match goto env with
  | GotoRaises => (true, disk)
  | GotoNone => (false, disk)
  | GotoResponse st content_type =>
      if negb (st =? 200) then (false, disk)
      else if negb (startswith content_type "image/") then (false, disk)
      else if negb (body_ok env) then (true, disk)
      else
        let too_small :=
          match decode_memory env with
          | Some (width, height) => (width <? min_width self) && (height <? min_height self)
          | None => false
          end in
        if too_small then (false, disk)
        else
          match write env with
          | OpenRaises => (true, disk)
          | WriteRaises => (true, {[ filepath ]} ∪ disk)
          | WriteOk =>
              let disk1 := {[ filepath ]} ∪ disk in
              match decode_file env with
              | Some (width, height) =>
                  if (width <? min_width self) && (height <? min_height self)
                  then (false, if remove_ok env then disk1 ∖ {[ filepath ]} else disk1)
                  else (true, disk1)
              | None => (true, disk1)
              end
          end
  end.

(** One planned download: address, destination and what the world
    answers. *)
Record Job := {
  job_url : string;
  job_path : string;
  job_env : FetchEnv
}.

(** the loop over the download tasks: each [True] result adds one to
    [downloaded_count] *)
Fixpoint run_downloads (self : PinterestImageScraper) (jobs : list Job)
    (disk : gset string) : PinterestImageScraper * gset string :=
  match jobs with
  | [] => (self, disk)
  | j :: jobs' =>
      let '(result, disk1) := _download_image self (job_env j) (job_path j) disk in
      let self1 :=
        if result then set_downloaded_count self (downloaded_count self + 1) else self in
      run_downloads self1 jobs' disk1
  end.

(** ** [PinterestScraper] and [PinterestBoardScraper]

    The two single-purpose scrapers keep a set of plain addresses and
    share one [_download_image] (the two copies differ in the file name
    only). *)

Module PinterestScraper.

Record t := {
  min_width : Z;
  min_height : Z;
  limit : Z;
  image_urls : gset string;
  downloaded_count : Z
}.

(** every exception is caught by the outer [except] (or by the
    [except] around the verification), which returns [False] *)
Definition _download_image (self : t) (env : FetchEnv)
    (filepath : string) (disk : gset string) : bool * gset string :=
  match goto env with
  | GotoRaises => (false, disk)
  | GotoNone => (false, disk)
  | GotoResponse st _ =>
      if negb (st =? 200) then (false, disk)
      else if negb (body_ok env) then (false, disk)
      else
        match write env with
        | OpenRaises => (false, disk)
        | WriteRaises => (false, {[ filepath ]} ∪ disk)
        | WriteOk =>
            let disk1 := {[ filepath ]} ∪ disk in
            match decode_file env with
            | Some (width, height) =>
                if (width <? min_width self) || (height <? min_height self)
                then (false, if remove_ok env then disk1 ∖ {[ filepath ]} else disk1)
                else (close_ok env, disk1)
            | None => (false, disk1)
            end
        end
  end.

End PinterestScraper.

Module PinterestBoardScraper.

Record t := {
  min_width : Z;
  min_height : Z;
  limit : Z;
  image_urls : gset string;
  downloaded_count : Z
}.

Definition _download_image (self : t) (env : FetchEnv)
    (filepath : string) (disk : gset string) : bool * gset string :=
  match goto env with
  | GotoRaises => (false, disk)
  | GotoNone => (false, disk)
  | GotoResponse st _ =>
      if negb (st =? 200) then (false, disk)
      else if negb (body_ok env) then (false, disk)
      else
        match write env with
        | OpenRaises => (false, disk)
        | WriteRaises => (false, {[ filepath ]} ∪ disk)
        | WriteOk =>
            let disk1 := {[ filepath ]} ∪ disk in
            match decode_file env with
            | Some (width, height) =>
                if (width <? min_width self) || (height <? min_height self)
                then (false, if remove_ok env then disk1 ∖ {[ filepath ]} else disk1)
                else (close_ok env, disk1)
            | None => (false, disk1)
            end
        end
  end.

End PinterestBoardScraper.

(** ** Sample configurations *)

(** a search configured with the default floors of 800 by 800 *)
Definition cats : PinterestImageScraper := new_scraper "cats" false.

(** the same search with floors of 100 by 100 *)
Definition cats_small : PinterestImageScraper := set_limits cats 100 100 50.

(** the [cats] search once [start_scraping] has switched collecting on *)
Definition cats_collecting : PinterestImageScraper := set_start_collecting cats true.

(** an image response with status 200 *)
Definition image_response (u : string) : Response :=
  {| resource_type := "image"; status := 200; url := u; text := None |}.

(** the document response of a page *)
Definition document_response (u : string) : Response :=
  {| resource_type := "document"; status := 200; url := u; text := None |}.

(** the relevance flag that the candidates found in the present state
    of the run carry (see [candidate_of_flag]) *)
Definition flag_of_state (self : PinterestImageScraper) : bool :=
  is_ad_search self || negb (inside_search_results self) || is_board self
  || negb (bool_decide (relevant_image_ids self = ∅)).

(** the same picture at two thumbnail tiers, and at the originals tier *)
Definition picture_236 : string := "https://i.pinimg.com/236x/ab/cd/ef/1234567.jpg".
Definition picture_474 : string := "https://i.pinimg.com/474x/ab/cd/ef/1234567.jpg".
Definition picture_originals : string := "https://i.pinimg.com/originals/ab/cd/ef/1234567.jpg".

(** the address of the search page for [cats] *)
Definition cats_search_page : string := "https://www.pinterest.com/search/pins/?q=cats".

(** an [xhr] answer of the search page that names the pin [1234567] *)
Definition cats_search_xhr : Response :=
  {| resource_type := "xhr"; status := 200; url := cats_search_page;
     text := Some ("{" +:+ IdRegex.key +:+ " " +:+ String IdRegex.dquote "1234567"
                   +:+ String IdRegex.dquote ", pin_join, cats}") |}.

(** candidates of a search: one relevant, five others, in the order in
    which the set happens to be listed *)
Definition one_and_five : list (string * bool) :=
  [ ("https://i.pinimg.com/a.jpg", false);
    ("https://i.pinimg.com/b.jpg", false);
    ("https://i.pinimg.com/originals/c.jpg", false);
    ("https://i.pinimg.com/originals/r.jpg", true);
    ("https://i.pinimg.com/originals/d.jpg", false);
    ("https://i.pinimg.com/e.jpg", false) ].

(** the [cats] search with [--limit 3] and with [--limit 0] *)
Definition cats_limit_3 : PinterestImageScraper := set_limits cats 800 800 3.
Definition cats_limit_0 : PinterestImageScraper := set_limits cats 800 800 0.

(** one way of listing a set: first occurrences, in order *)
Definition first_occurrences (l : list string) : list string := remove_dups l.

(** ** Sample answers of the outside world *)

(** the fetch answers 200 with the given content type; the bytes decode
    to [size] (or do not decode), in memory and from the file alike;
    writing, deleting and closing succeed *)
Definition world (content_type : string) (size : option (Z * Z)) : FetchEnv :=
  {| goto := GotoResponse 200 content_type;
     body_ok := true;
     decode_memory := size;
     write := WriteOk;
     decode_file := size;
     remove_ok := true;
     close_ok := true |}.

(** [page.goto] raises, for instance on its 30 s timeout *)
Definition world_goto_raises : FetchEnv :=
  {| goto := GotoRaises;
     body_ok := false;
     decode_memory := None;
     write := OpenRaises;
     decode_file := None;
     remove_ok := false;
     close_ok := false |}.

(** the two single-purpose scrapers with their default floors *)
Definition search_scraper : PinterestScraper.t :=
  {| PinterestScraper.min_width := 800;
     PinterestScraper.min_height := 800;
     PinterestScraper.limit := 50;
     PinterestScraper.image_urls := ∅;
     PinterestScraper.downloaded_count := 0 |}.

Definition board_scraper : PinterestBoardScraper.t :=
  {| PinterestBoardScraper.min_width := 800;
     PinterestBoardScraper.min_height := 800;
     PinterestBoardScraper.limit := 50;
     PinterestBoardScraper.image_urls := ∅;
     PinterestBoardScraper.downloaded_count := 0 |}.

(** a destination path *)
Definition cats_000 : string := "pinterest_search_cats/cats_20240101000000_000.jpg".

(** the download of [picture_originals] to [cats_000] in a given world *)
Definition job_in (env : FetchEnv) : Job :=
  {| job_url := picture_originals; job_path := cats_000; job_env := env |}.

(** ** Relations between two states of a run *)

(** the attributes that the response handler only reads *)
Definition same_settings (self1 self2 : PinterestImageScraper) : Prop :=
  target self2 = target self1
  ∧ is_board self2 = is_board self1
  ∧ min_width self2 = min_width self1
  ∧ min_height self2 = min_height self1
  ∧ limit self2 = limit self1
  ∧ downloaded_count self2 = downloaded_count self1
  ∧ start_collecting self2 = start_collecting self1
  ∧ is_ad_search self2 = is_ad_search self1.

(** a string of decimal digits only *)
Fixpoint all_digits (s : string) : bool :=
  match s with
  | EmptyString => true
  | String c s' => PinimgRegex.is_digit c && all_digits s'
  end.

(** the path segments that [_convert_to_high_res] looks for *)
Definition known_markers : list string :=
  ["/originals/"; "/60x60/"; "/75x75/"; "/236x/"; "/474x/"; "/736x/"; "/1200x/"].

(** the thumbnail tiers that [_convert_to_high_res] rewrites *)
Definition resolution_patterns : list string :=
  ["/236x/"; "/474x/"; "/736x/"; "/1200x/"].

(** a string without a line feed: what the regular-expression dot can
    run over *)
Fixpoint no_newline (s : string) : bool :=
  match s with
  | EmptyString => true
  | String c s' => negb (PinimgRegex.is_newline c) && no_newline s'
  end.

(** the extensions that the regular expression of
    [_convert_to_high_res] accepts *)
Definition image_extensions : list string := [".jpg"; ".jpeg"; ".png"; ".webp"].

(** the candidates of scenario A: a relevant original and another
    thumbnail *)
Definition one_and_one : list (string * bool) :=
  [ ("https://i.pinimg.com/236x/b.jpg", false);
    ("https://i.pinimg.com/originals/a.jpg", true) ].

(** the [cats] search with [--limit 1] *)
Definition cats_limit_1 : PinterestImageScraper := set_limits cats 800 800 1.

(** an ad search ([is_ad_search] holds: the target contains [ad]) *)
Definition ads : PinterestImageScraper := new_scraper "shoe ads" false.

(** the result of one planned download; it does not depend on the files
    already on disk *)
Definition job_succeeds (self : PinterestImageScraper) (j : Job) : bool :=
  (_download_image self (job_env j) (job_path j) ∅).1.

(** the fetch answers 404 *)
Definition world_not_found : FetchEnv :=
  {| goto := GotoResponse 404 "text/html";
     body_ok := true;
     decode_memory := None;
     write := WriteOk;
     decode_file := None;
     remove_ok := true;
     close_ok := true |}.

(** ** [PinterestScraper._handle_response] and
       [PinterestBoardScraper._handle_response]

    The two single-purpose scrapers share one handler, copied word for
    word.  It keeps a set of plain addresses. *)

(** [s.endswith(suffix)] *)
Definition endswith (s suffix : string) : bool :=
  (String.length suffix <=? String.length s)%nat
  && String.eqb (str_drop (String.length s - String.length suffix) s) suffix.

(** [int(s)] for a string of decimal digits *)
Definition int_of_digits (s : string) : Z :=
  let fix go (acc : Z) (s : string) : Z :=
    match s with
    | EmptyString => acc
    | String c s' => go (acc * 10 + (Z.of_nat (nat_of_ascii c) - 48)) s'
    end in
  go 0 s.

(** The regular expression of the metadata harvest,

    [re.finditer(r'"original":\s*"([^"]+)".*?"original_width":\s*(\d+).*?"original_height":\s*(\d+)', text)]

    matched by hand.  [[^"]+] is the run of characters up to the next
    double quote; the two lazy [.*?] look, without crossing a newline,
    for the nearest place at which the rest of the pattern matches. *)

Module OriginalRegex.

(** [dquote original dquote :] *)
Definition key_original : string :=
  String IdRegex.dquote ("original" +:+ String IdRegex.dquote ":").

(** [dquote original_width dquote :] *)
Definition key_width : string :=
  String IdRegex.dquote ("original_width" +:+ String IdRegex.dquote ":").

(** [dquote original_height dquote :] *)
Definition key_height : string :=
  String IdRegex.dquote ("original_height" +:+ String IdRegex.dquote ":").

(** the number of leading characters other than a double quote *)
Fixpoint nonquote_len (s : string) : nat :=
  match s with
  | String c s' => if Ascii.eqb c IdRegex.dquote then O else S (nonquote_len s')
  | EmptyString => O
  end.

(** [dquote original_height dquote :\s*(\d+)] at the start of [s]:
    the height and the matched length *)
Definition height_here (s : string) : option (Z * nat) :=
  if startswith s key_height then
    let r := str_drop (String.length key_height) s in
    let w := IdRegex.spaces_len r in
    let d := PinimgRegex.digits_len (str_drop w r) in
    if (0 <? d)%nat
    then Some (int_of_digits (str_take d (str_drop w r)),
               (String.length key_height + w + d)%nat)
    else None
  else None.

(** [.*?] followed by the height part *)
Fixpoint find_height (s : string) : option (Z * nat) :=
  match height_here s with
  | Some m => Some m
  | None =>
      match s with
      | EmptyString => None
      | String c s' =>
          if PinimgRegex.is_newline c then None
          else match find_height s' with
               | Some (h, n) => Some (h, S n)
               | None => None
               end
      end
  end.

(** [dquote original_width dquote :\s*(\d+)] followed by the rest of the
    pattern, at the start of [s]: width, height and the matched length *)
Definition width_here (s : string) : option (Z * Z * nat) :=
  if startswith s key_width then
    let r := str_drop (String.length key_width) s in
    let w := IdRegex.spaces_len r in
    let d := PinimgRegex.digits_len (str_drop w r) in
    if (0 <? d)%nat then
      match find_height (str_drop (w + d) r) with
      | Some (h, n) =>
          Some (int_of_digits (str_take d (str_drop w r)), h,
                (String.length key_width + w + d + n)%nat)
      | None => None
      end
    else None
  else None.

(** [.*?] followed by the width part and the rest of the pattern *)
Fixpoint find_width (s : string) : option (Z * Z * nat) :=
  match width_here s with
  | Some m => Some m
  | None =>
      match s with
      | EmptyString => None
      | String c s' =>
          if PinimgRegex.is_newline c then None
          else match find_width s' with
               | Some (w, h, n) => Some (w, h, S n)
               | None => None
               end
      end
  end.

(** the whole pattern at the start of [s]: the three groups (the
    numbers already converted by [int]) and the matched length *)
Definition match_here (s : string) : option (string * Z * Z * nat) :=
  if startswith s key_original then
    let r := str_drop (String.length key_original) s in
    let w := IdRegex.spaces_len r in
    match str_drop w r with
    | String c r2 =>
        let n := nonquote_len r2 in
        if Ascii.eqb c IdRegex.dquote && (0 <? n)%nat
           && startswith (str_drop n r2) (String IdRegex.dquote EmptyString)
        then
          match find_width (str_drop (S n) r2) with
          | Some (width, height, m) =>
              Some (str_take n r2, width, height,
                    (String.length key_original + w + 1 + n + 1 + m)%nat)
          | None => None
          end
        else None
    | EmptyString => None
    end
  else None.

Fixpoint finditer_from (skip : nat) (s : string) : list (string * Z * Z) :=
  match s with
  | EmptyString => []
  | String _ s' =>
      match skip with
      | S k => finditer_from k s'
      | O =>
          match match_here s with
          | Some (u, w, h, n) => (u, w, h) :: finditer_from (Nat.pred n) s'
          | None => finditer_from O s'
          end
      end
  end.

Definition finditer (text : string) : list (string * Z * Z) := finditer_from O text.

End OriginalRegex.

(** a single backslash, Python's ["\\"] *)
Definition backslash : string := String "092"%char EmptyString.

(** the body of the shared handler, on the attributes it uses: the
    floors, the limit and the set of addresses *)
Definition collect_originals (min_width min_height limit : Z)
    (image_urls : gset string) (r : Response) : gset string :=
  if negb (limit =? 0) && (limit <=? Z.of_nat (size image_urls)) then image_urls
  else
    let urls1 :=
      if String.eqb (resource_type r) "image" && (status r =? 200)
      then
        if (endswith (url r) ".jpg" || endswith (url r) ".jpeg" || endswith (url r) ".png")
           && str_in "/originals/" (url r)
        then {[ url r ]} ∪ image_urls
        else image_urls
      else image_urls in
    if String.eqb (resource_type r) "xhr" || String.eqb (resource_type r) "fetch" then
      match text r with
      | None => urls1
      | Some t =>
          if str_in OriginalRegex.key_width t && str_in OriginalRegex.key_height t
          then
            foldl (λ urls '(u, width, height),
                     if (min_width <=? width) && (min_height <=? height)
                     then {[ replace u backslash EmptyString ]} ∪ urls
                     else urls)
                  urls1 (OriginalRegex.finditer t)
          else urls1
      end
    else urls1.

Definition search_handle_response (self : PinterestScraper.t) (r : Response)
  : PinterestScraper.t :=
  {| PinterestScraper.min_width := PinterestScraper.min_width self;
     PinterestScraper.min_height := PinterestScraper.min_height self;
     PinterestScraper.limit := PinterestScraper.limit self;
     PinterestScraper.image_urls :=
       collect_originals (PinterestScraper.min_width self)
         (PinterestScraper.min_height self) (PinterestScraper.limit self)
         (PinterestScraper.image_urls self) r;
     PinterestScraper.downloaded_count := PinterestScraper.downloaded_count self |}.

Definition board_handle_response (self : PinterestBoardScraper.t) (r : Response)
  : PinterestBoardScraper.t :=
  {| PinterestBoardScraper.min_width := PinterestBoardScraper.min_width self;
     PinterestBoardScraper.min_height := PinterestBoardScraper.min_height self;
     PinterestBoardScraper.limit := PinterestBoardScraper.limit self;
     PinterestBoardScraper.image_urls :=
       collect_originals (PinterestBoardScraper.min_width self)
         (PinterestBoardScraper.min_height self) (PinterestBoardScraper.limit self)
         (PinterestBoardScraper.image_urls self) r;
     PinterestBoardScraper.downloaded_count := PinterestBoardScraper.downloaded_count self |}.

(** an [xhr] answer that describes two pictures: one of 1200 by 1600
    and one of 400 by 300 *)
Definition metadata_text : string :=
  "{" +:+ OriginalRegex.key_original +:+ " " +:+ String IdRegex.dquote
    ("https:\/\/i.pinimg.com\/originals\/aa\/big.jpg" +:+ String IdRegex.dquote
    (", " +:+ OriginalRegex.key_width +:+ " 1200, " +:+ OriginalRegex.key_height
     +:+ " 1600}, {" +:+ OriginalRegex.key_original +:+ " " +:+ String IdRegex.dquote
    ("https:\/\/i.pinimg.com\/originals\/bb\/small.jpg" +:+ String IdRegex.dquote
    (", " +:+ OriginalRegex.key_width +:+ " 400, " +:+ OriginalRegex.key_height
     +:+ " 300}")))).

Definition metadata_response : Response :=
  {| resource_type := "xhr"; status := 200;
     url := "https://www.pinterest.com/resource/BaseSearchResource/get/";
     text := Some metadata_text |}.

(** a stream of observations, handled one after the other *)
Definition search_handle_all (self : PinterestScraper.t) (rs : list Response)
  : PinterestScraper.t :=
  foldl search_handle_response self rs.

Definition board_handle_all (self : PinterestBoardScraper.t) (rs : list Response)
  : PinterestBoardScraper.t :=
  foldl board_handle_response self rs.

(** the metadata entries of a response that pass the floors *)
Definition admitted_metadata (min_width min_height : Z) (r : Response)
    (raw : string) : Prop :=
  ∃ (t : string) (width height : Z),
    text r = Some t
    ∧ (raw, width, height) ∈ OriginalRegex.finditer t
    ∧ min_width ≤ width ∧ min_height ≤ height.

(** the address of an image response that the handler keeps *)
Definition kept_image (r : Response) : Prop :=
  resource_type r = "image" ∧ status r = 200
  ∧ (endswith (url r) ".jpg" || endswith (url r) ".jpeg" || endswith (url r) ".png") = true
  ∧ str_in "/originals/" (url r) = true.

(** the search scraper with [--limit 1] *)
Definition search_scraper_limit_1 : PinterestScraper.t :=
  {| PinterestScraper.min_width := 800;
     PinterestScraper.min_height := 800;
     PinterestScraper.limit := 1;
     PinterestScraper.image_urls := ∅;
     PinterestScraper.downloaded_count := 0 |}.

(** ** [__init__]: the name of a run and its output directory *)

(** [s.rstrip('/')] *)
Fixpoint rstrip_slash (s : string) : string :=
  match s with
  | EmptyString => EmptyString
  | String c s' =>
      let r := rstrip_slash s' in
      if Ascii.eqb c "/" && String.eqb r EmptyString then EmptyString else String c r
  end.

(** [s.split('/')[-1]]: what follows the last slash *)
Fixpoint last_segment (s : string) : string :=
  match s with
  | EmptyString => EmptyString
  | String c s' =>
      if str_in "/" s' then last_segment s'
      else if Ascii.eqb c "/" then s' else String c s'
  end.

(** [self.name] of [PinterestImageScraper] (for a board also
    [self.board_name] of [PinterestBoardScraper]) *)
Definition run_name (target0 : string) (is_board0 : bool) : string :=
  if is_board0 then last_segment (rstrip_slash target0)
  else replace target0 " " "_".

(** [self.output_dir] of [PinterestImageScraper]; the argument is
    [None] or empty when no directory was given *)
Definition run_output_dir (target0 : string) (is_board0 : bool)
    (output_dir : option string) : string :=
  match output_dir with
  | Some d =>
      if String.eqb d EmptyString
      then (if is_board0 then "pinterest_board_" else "pinterest_search_")
           +:+ run_name target0 is_board0
      else d
  | None =>
      (if is_board0 then "pinterest_board_" else "pinterest_search_")
      +:+ run_name target0 is_board0
  end.

(** a string of slashes only *)
Fixpoint all_slashes (s : string) : bool :=
  match s with
  | EmptyString => true
  | String c s' => Ascii.eqb c "/" && all_slashes s'
  end.

(** ** Pin identifiers taken from page addresses

    [re.search(r'/pin/(\d+)', s)]: the digits after the leftmost
    [/pin/] that is followed by a digit. *)

Definition pin_here (s : string) : option string :=
  if startswith s "/pin/" then
    let r := str_drop 5 s in
    let d := PinimgRegex.digits_len r in
    if (0 <? d)%nat then Some (str_take d r) else None
  else None.

Fixpoint pin_search (s : string) : option string :=
  match pin_here s with
  | Some g => Some g
  | None =>
      match s with
      | EmptyString => None
      | String _ s' => pin_search s'
      end
  end.

(** [_extract_images_from_search_results], after a pin was opened: the
    identifier in the address of the page is added to
    [relevant_image_ids] *)
Definition note_opened_pin (self : PinterestImageScraper) (current_url : string)
  : PinterestImageScraper :=
  match pin_search current_url with
  | Some pin_id => set_relevant_image_ids self ({[ pin_id ]} ∪ relevant_image_ids self)
  | None => self
  end.

(** [_capture_search_result_ids], the loop over the links of the page;
    an entry is the [href] of a link, [None] when it has none *)
Definition note_pin_links (self : PinterestImageScraper) (hrefs : list (option string))
  : PinterestImageScraper :=
  foldl (λ self0 href,
           match href with
           | Some h =>
               if negb (String.eqb h EmptyString) && str_in "/pin/" h
               then note_opened_pin self0 h
               else self0
           | None => self0
           end) self hrefs.

(** the [cats] search inside its results, with no identifier known *)
Definition cats_inside : PinterestImageScraper :=
  handle_all cats_collecting [document_response cats_search_page].

(** ** The resolution tiers of an address *)

(** the markers of the known tiers in the order in which the
    specification ranks them, highest first: originals > 1200x > 736x >
    474x > 236x *)
Definition tier_markers : list string :=
  ["/originals/"; "/1200x/"; "/736x/"; "/474x/"; "/236x/"].

(** the position in [ms] of the first marker that occurs in [u];
    [None] when none occurs *)
Fixpoint first_marker (ms : list string) (u : string) : option nat :=
  match ms with
  | [] => None
  | m :: ms' => if str_in m u then Some 0%nat else S <$> first_marker ms' u
  end.

(** the tier that an address carries: the highest-ranked tier whose
    marker occurs in it, as its position in [tier_markers] (0 is the
    originals tier); [None] is the unknown tier *)
Definition tier_of (u : string) : option nat := first_marker tier_markers u.

(** candidates at three tiers, in the order in which the set happens to
    be listed: no marker, 236x, originals *)
Definition three_tiers : list (string * bool) :=
  [ ("https://i.pinimg.com/plain.jpg", true);
    ("https://i.pinimg.com/236x/s.jpg", true);
    ("https://i.pinimg.com/originals/r.jpg", false) ].

(** what the [cats] search observes when a picture is loaded before and
    after its pin has been named: the search page, the picture at the
    236x tier, an [xhr] answer naming the pin, the picture at the 474x
    tier *)
Definition seen_before_and_after : list Response :=
  [ document_response cats_search_page; image_response picture_236;
    cats_search_xhr; image_response picture_474 ].

(** a second destination path *)
Definition cats_001 : string := "pinterest_search_cats/cats_20240101000000_001.jpg".

(** the downloads of a plan that holds [picture_originals] twice; the
    picture is 1000 by 1000 *)
Definition same_picture_jobs : list Job :=
  [ {| job_url := picture_originals; job_path := cats_000;
       job_env := world "image/jpeg" (Some (1000, 1000)) |};
    {| job_url := picture_originals; job_path := cats_001;
       job_env := world "image/jpeg" (Some (1000, 1000)) |} ].

(** * Properties *)

(** a decidable statement about concrete data, settled by evaluating
    its decision procedure *)
Ltac by_evaluation := apply (bool_decide_unpack _); vm_compute; exact I.

(** ** Strings *)

Section StringFacts.

Lemma append_cons (c : ascii) (s t : string) :
  String c s +:+ t = String c (s +:+ t).
Proof. reflexivity. Qed.

Lemma startswith_append (p s : string) : startswith (p +:+ s) p = true.
Proof.
  induction p as [|c p IH]; [by destruct s|].
  rewrite append_cons. simpl. by rewrite Ascii.eqb_refl.
Qed.

Lemma startswith_refl (p : string) : startswith p p = true.
Proof. induction p as [|c p IH]; [done|]. simpl. by rewrite Ascii.eqb_refl. Qed.

Lemma startswith_append_l (t p s : string) :
  startswith t p = true → startswith (t +:+ s) p = true.
Proof.
  revert t. induction p as [|c p IH]; intros t H; [by destruct (t +:+ s)|].
  destruct t as [|b t]; [done|].
  rewrite append_cons. simpl in *.
  destruct (Ascii.eqb c b); [auto|done].
Qed.

Lemma str_in_here (p s : string) : startswith s p = true → str_in p s = true.
Proof. intros H. destruct s; simpl in *; by rewrite H. Qed.

Lemma str_in_cons (p : string) (c : ascii) (s : string) :
  str_in p s = true → str_in p (String c s) = true.
Proof. intros H. cbn [str_in]. rewrite H. apply orb_true_r. Qed.

Lemma str_in_append_r (p t s : string) :
  str_in p s = true → str_in p (t +:+ s) = true.
Proof.
  intros H. induction t as [|c t IH]; [done|].
  rewrite append_cons. by apply str_in_cons.
Qed.

Lemma str_in_append_l (p t s : string) :
  str_in p t = true → str_in p (t +:+ s) = true.
Proof.
  induction t as [|c t IH]; intros H.
  - apply str_in_here. destruct p; [by destruct s|done].
  - rewrite append_cons. cbn [str_in] in H.
    apply orb_true_iff in H as [H|H].
    + apply str_in_here. rewrite <- append_cons. by apply startswith_append_l.
    + apply str_in_cons. auto.
Qed.

(** after [replace], the replacement text occurs wherever the
    replaced text occurred *)
Lemma str_in_replace (s old new : string) :
  old ≠ EmptyString →
  str_in old s = true → str_in new (replace s old new) = true.
Proof.
  intros Hold. unfold replace.
  induction s as [|c s IH]; intros H.
  - destruct old; [done|]. done.
  - cbn [replace_from]. destruct (startswith (String c s) old) eqn:Hp.
    + apply str_in_append_l, str_in_here, startswith_refl.
    + apply str_in_cons, IH.
      cbn [str_in] in H. rewrite Hp in H. done.
Qed.

End StringFacts.

(** ** [_convert_to_high_res]: the resolution normaliser *)

Section Normaliser.

Implicit Types (self : PinterestImageScraper) (u : string).

(** an address at the originals tier is returned as it is *)
Lemma convert_originals self u :
  str_in "/originals/" u = true → _convert_to_high_res self u = Some u.
Proof. intros H. unfold _convert_to_high_res. by rewrite H. Qed.

Lemma match_here_host (s g1 g2 g3 : string) :
  PinimgRegex.match_here s = Some (g1, g2, g3) → g1 = PinimgRegex.host.
Proof.
  unfold PinimgRegex.match_here. intros H.
  repeat case_match; simplify_eq; done.
Qed.

Lemma search_host (s g1 g2 g3 : string) :
  PinimgRegex.search s = Some (g1, g2, g3) → g1 = PinimgRegex.host.
Proof.
  induction s as [|c s IH]; cbn [PinimgRegex.search];
    destruct (PinimgRegex.match_here _) as [[[h1 h2] h3]|] eqn:Hm; intros H;
    simplify_eq; eauto using match_here_host.
Qed.

Lemma host_originals (g : string) :
  str_in "/originals/" (PinimgRegex.host +:+ "originals/" +:+ g) = true.
Proof.
  change (str_in "/originals/" ("https://i.pinimg.com/originals/" +:+ g) = true).
  by apply str_in_append_l.
Qed.

(** every result of the normaliser that is not the input itself
    carries the originals marker *)
Lemma convert_result self u high :
  _convert_to_high_res self u = Some high →
  high = u ∨ str_in "/originals/" high = true.
Proof.
  unfold _convert_to_high_res. intros H.
  repeat case_match; simplify_eq; auto; right;
    try (apply str_in_replace; done).
  match goal with Hs : PinimgRegex.search _ = Some _ |- _ =>
    apply search_host in Hs as -> end.
  apply host_originals.
Qed.

End Normaliser.

Section NormaliserClaims.

Implicit Types (self : PinterestImageScraper) (u : string).

(** C8 (normaliser idempotence).  Normalising a second time changes
    nothing: feeding the result of [_convert_to_high_res] back into it
    (a rejected address stays rejected) gives the result of the first
    application, for every address and every configuration. *)
Theorem convert_to_high_res_idempotent self u :
  _convert_to_high_res self u ≫= _convert_to_high_res self
  = _convert_to_high_res self u.
Proof.
  destruct (_convert_to_high_res self u) as [high|] eqn:H; [|done].
  cbn. destruct (convert_result _ _ _ H) as [->|Ho]; [done|].
  by apply convert_originals.
Qed.

End NormaliserClaims.

Section MicroThumbnails.

Implicit Types (self : PinterestImageScraper) (u : string).

(** C9 (normaliser rejection), as amended.  An address with a
    micro-thumbnail segment ([/60x60/] or [/75x75/]) that does not also
    carry the [/originals/] marker is rejected whenever one of the
    configured minimum dimensions exceeds 100. *)
Theorem convert_rejects_micro_thumbnail self u :
  str_in "/60x60/" u || str_in "/75x75/" u = true →
  str_in "/originals/" u = false →
  100 < min_width self ∨ 100 < min_height self →
  _convert_to_high_res self u = None.
Proof.
  intros Hm Ho Hmin. unfold _convert_to_high_res. rewrite Ho, Hm.
  assert ((100 <? min_width self) || (100 <? min_height self) = true) as ->; [|done].
  apply orb_true_iff. destruct Hmin; [left|right]; by apply Z.ltb_lt.
Qed.

Lemma convert_rejects_micro_thumbnail_witness :
  _convert_to_high_res cats "https://i.pinimg.com/60x60/ab/cd/ef/img.jpg" = None.
Proof.
  apply convert_rejects_micro_thumbnail.
  - vm_compute; reflexivity.
  - vm_compute; reflexivity.
  - left. vm_compute; reflexivity.
Defined.

(** C9 as stated fails: the originals test comes first, so an address
    that carries both the [/originals/] marker and a micro-thumbnail
    segment is returned, not rejected, although both floors exceed
    100. *)
Lemma convert_micro_thumbnail_under_originals :
  let u := "https://i.pinimg.com/originals/60x60/ab/cd/ef/img.jpg" in
  str_in "/60x60/" u || str_in "/75x75/" u = true
  ∧ 100 < min_width cats ∧ 100 < min_height cats
  ∧ _convert_to_high_res cats u = Some u
  ∧ _convert_to_high_res cats u ≠ None.
Proof. split_and!; by vm_compute. Qed.

(** C10 (micro-thumbnails are never upgraded).  When both configured
    minimum dimensions are at most 100, an address with a
    micro-thumbnail segment is returned unchanged: neither rejected nor
    rewritten. *)
Theorem convert_keeps_micro_thumbnail self u :
  str_in "/60x60/" u || str_in "/75x75/" u = true →
  min_width self ≤ 100 →
  min_height self ≤ 100 →
  _convert_to_high_res self u = Some u.
Proof.
  intros Hm Hw Hh. unfold _convert_to_high_res. rewrite Hm.
  destruct (str_in "/originals/" u); [done|].
  assert ((100 <? min_width self) || (100 <? min_height self) = false) as ->; [|done].
  apply orb_false_iff. split; apply Z.ltb_ge; done.
Qed.

Lemma convert_keeps_micro_thumbnail_witness :
  _convert_to_high_res cats_small "https://i.pinimg.com/75x75/ab/cd/ef/img.jpg"
  = Some "https://i.pinimg.com/75x75/ab/cd/ef/img.jpg".
Proof.
  apply convert_keeps_micro_thumbnail.
  - vm_compute; reflexivity.
  - vm_compute. discriminate.
  - vm_compute. discriminate.
Defined.

End MicroThumbnails.

(** ** [_handle_response]: the candidate set *)

Section Collector.

Implicit Types (self : PinterestImageScraper) (r : Response) (u : string).

Lemma size_add_le (c : string * bool) (X : gset (string * bool)) :
  (size ({[ c ]} ∪ X) ≤ size X + 1)%nat.
Proof.
  rewrite size_union_alt, size_singleton.
  assert (size (X ∖ {[ c ]}) ≤ size X)%nat; [|lia].
  apply subseteq_size. intros x Hx. by apply elem_of_difference in Hx as [? _].
Qed.

Lemma add_present (c : string * bool) (X : gset (string * bool)) :
  c ∈ X → {[ c ]} ∪ X = X.
Proof. intros H. apply subseteq_union_1_L. by apply singleton_subseteq_l. Qed.

(** an image response does not touch the search-page state *)
Lemma note_search_response_image self r :
  resource_type r = "image" → note_search_response self r = self.
Proof. intros H. unfold note_search_response. by rewrite H. Qed.

(** the candidate of an observation does not depend on the candidates
    collected so far *)
Lemma candidate_of_set_image_urls self X u :
  candidate_of (set_image_urls self X) u = candidate_of self u.
Proof. reflexivity. Qed.

(** the address of a candidate is the normalised address *)
Lemma candidate_of_reference self u high flag :
  candidate_of self u = Some (high, flag) →
  _convert_to_high_res self u = Some high.
Proof.
  unfold candidate_of. intros H.
  destruct (_ && negb (is_relevant self u)); [done|].
  destruct ((str_in _ u || _) && _); [done|].
  destruct (any_in _ (lower u) && _); [|done].
  destruct (_convert_to_high_res self u) as [h|]; [|done].
  destruct (any_in _ _); by simplify_eq.
Qed.

(** in one state of the run, every candidate gets the same flag *)
Lemma candidate_of_flag self u high flag :
  candidate_of self u = Some (high, flag) → flag = flag_of_state self.
Proof.
  unfold candidate_of, flag_of_state. intros H.
  destruct (_ && negb (is_relevant self u)) eqn:Hdrop; [done|].
  destruct ((str_in _ u || _) && _); [done|].
  destruct (any_in _ (lower u) && _); [|done].
  destruct (_convert_to_high_res self u) as [h|]; [|done].
  destruct (any_in _ _); [done|]. simplify_eq.
  unfold is_relevant in *.
  destruct (is_ad_search self), (inside_search_results self), (is_board self);
    cbn [orb andb negb] in *; rewrite ?orb_true_r; try done.
  case_bool_decide as Hids; cbn [orb andb negb] in *.
  - by rewrite Hids, elements_empty.
  - by apply negb_false_iff in Hdrop as ->.
Qed.

(** what one image observation does to the candidate set *)
Lemma handle_image_response self r :
  resource_type r = "image" →
  image_urls (_handle_response self r) = image_urls self
  ∨ ∃ c, candidate_of self (url r) = Some c
         ∧ _handle_response self r = set_image_urls self ({[ c ]} ∪ image_urls self).
Proof.
  intros Hr. unfold _handle_response.
  rewrite (note_search_response_image _ _ Hr).
  destruct (negb (start_collecting self)); [by left|].
  destruct (_ && (_ <=? _)); [by left|].
  destruct (_ && (_ =? _)); [|by left].
  destruct (candidate_of self (url r)) as [c|]; [right; eauto|by left].
Qed.

End Collector.

Section CollectorClaims.

Implicit Types (self : PinterestImageScraper) (r : Response) (u : string).

(** Within one state of the run the candidate set removes duplicates:
    two image observations handled one after the other whose raw
    addresses normalise to the same reference enlarge it by at most one
    candidate, and an observation whose pair (reference, flag) is
    already present changes nothing. *)
Theorem candidate_set_dedup self r1 r2 :
  resource_type r1 = "image" →
  resource_type r2 = "image" →
  _convert_to_high_res self (url r1) = _convert_to_high_res self (url r2) →
  (size (image_urls (_handle_response (_handle_response self r1) r2))
   ≤ size (image_urls self) + 1)%nat
  ∧ (∀ c, candidate_of self (url r1) = Some c → c ∈ image_urls self →
          image_urls (_handle_response self r1) = image_urls self).
Proof.
  intros H1 H2 Hsame. split.
  - destruct (handle_image_response self r1 H1) as [E1|(c1 & Hc1 & E1)].
    + destruct (handle_image_response (_handle_response self r1) r2 H2)
        as [E2|(c2 & Hc2 & E2)].
      * rewrite E2, E1. lia.
      * rewrite E2. cbn [image_urls set_image_urls]. rewrite E1. apply size_add_le.
    + rewrite E1.
      destruct (handle_image_response
                  (set_image_urls self ({[ c1 ]} ∪ image_urls self)) r2 H2)
        as [E2|(c2 & Hc2 & E2)].
      * rewrite E2. cbn [image_urls set_image_urls]. apply size_add_le.
      * rewrite candidate_of_set_image_urls in Hc2.
        destruct c1 as [h1 f1], c2 as [h2 f2].
        pose proof (candidate_of_reference _ _ _ _ Hc1) as Hr1.
        pose proof (candidate_of_reference _ _ _ _ Hc2) as Hr2.
        apply candidate_of_flag in Hc1, Hc2.
        rewrite Hsame, Hr2 in Hr1. simplify_eq.
        rewrite E2. cbn [image_urls set_image_urls].
        rewrite (assoc_L (∪)), (idemp_L (∪)). apply size_add_le.
  - intros c Hc Hin.
    destruct (handle_image_response self r1 H1) as [E1|(c1 & Hc1 & E1)]; [done|].
    rewrite E1. cbn [image_urls set_image_urls].
    rewrite Hc in Hc1. simplify_eq. by apply add_present.
Qed.

(** C1 (deduplication): what the code does on the failing input.  The
    elements of the candidate set are pairs (reference, relevance flag),
    so one reference can be stored twice.  The [cats] search sees a
    picture at the 236x tier while no pin identifier is known (flag
    [False]), and at the 474x tier after an [xhr] answer has named its
    pin (flag [True]): both addresses normalise to the same reference,
    and the set, empty before, holds two candidates for it.  Outside ad
    mode the planner builds [unique_urls] as [relevant_urls +
    other_urls[:needed_count]], which holds the reference twice in
    whatever order the set is listed, and so does the plan; in ad mode
    the same candidates give it once, because that path builds
    [unique_urls] with [list(set(...))].  The two planned downloads
    store the same picture in two files and count it twice. *)
Theorem same_picture_planned_twice :
  let after := handle_all cats_collecting seen_before_and_after in
  _convert_to_high_res cats_collecting picture_236 = Some picture_originals
  ∧ _convert_to_high_res cats_collecting picture_474 = Some picture_originals
  ∧ image_urls cats_collecting = ∅
  ∧ image_urls after = {[ (picture_originals, false); (picture_originals, true) ]}
  ∧ size (image_urls after) = 2%nat
  ∧ is_ad_search after = false
  ∧ limit after = 50
  ∧ (∀ list_of_set,
       urls_to_download list_of_set after
         [ (picture_originals, false); (picture_originals, true) ]
       = [ picture_originals; picture_originals ]
       ∧ urls_to_download list_of_set after
           [ (picture_originals, true); (picture_originals, false) ]
         = [ picture_originals; picture_originals ])
  ∧ urls_to_download first_occurrences ads
      [ (picture_originals, false); (picture_originals, true) ]
    = [ picture_originals ]
  ∧ job_url <$> same_picture_jobs = [ picture_originals; picture_originals ]
  ∧ downloaded_count (run_downloads after same_picture_jobs ∅).1
    = downloaded_count after + 2
  ∧ (run_downloads after same_picture_jobs ∅).2 = {[ cats_000; cats_001 ]}.
Proof.
  split_and!.
  - vm_compute; reflexivity.
  - vm_compute; reflexivity.
  - vm_compute; reflexivity.
  - vm_compute; reflexivity.
  - vm_compute; reflexivity.
  - vm_compute; reflexivity.
  - vm_compute; reflexivity.
  - intros list_of_set. split; vm_compute; reflexivity.
  - vm_compute; reflexivity.
  - vm_compute; reflexivity.
  - vm_compute; reflexivity.
  - vm_compute; reflexivity.
Qed.

End CollectorClaims.

(** ** [sorted(..., reverse=True)] and slices *)

Section SortedFacts.
Context {A : Type} (key : A → Z).

Lemma insert_desc_perm (x : A) (l : list A) : insert_desc key x l ≡ₚ x :: l.
Proof.
  induction l as [|y l IH]; [done|]. cbn [insert_desc].
  destruct (key x <? key y); [|done].
  rewrite IH. apply Permutation_swap.
Qed.

Lemma sorted_reverse_perm (l : list A) : sorted_reverse key l ≡ₚ l.
Proof.
  induction l as [|x l IH]; [done|]. cbn [sorted_reverse].
  by rewrite insert_desc_perm, IH.
Qed.

Lemma sorted_reverse_length (l : list A) :
  length (sorted_reverse key l) = length l.
Proof. apply Permutation_length, sorted_reverse_perm. Qed.

Lemma insert_desc_sorted (x : A) (l : list A) :
  StronglySorted (key_ge key) l → StronglySorted (key_ge key) (insert_desc key x l).
Proof.
  induction l as [|y l IH]; intros Hs; cbn [insert_desc].
  - repeat constructor.
  - apply StronglySorted_cons in Hs as [Hy Hl].
    destruct (key x <? key y) eqn:Hlt.
    + apply Z.ltb_lt in Hlt. apply StronglySorted_cons. split; [|auto].
      rewrite insert_desc_perm. constructor; [unfold key_ge; lia|done].
    + apply Z.ltb_ge in Hlt. apply StronglySorted_cons. split.
      * constructor; [done|].
        eapply Forall_impl; [exact Hy|]. unfold key_ge. intros z Hz. lia.
      * by apply StronglySorted_cons.
Qed.

Lemma sorted_reverse_sorted (l : list A) :
  StronglySorted (key_ge key) (sorted_reverse key l).
Proof.
  induction l as [|x l IH]; [constructor|]. by apply insert_desc_sorted.
Qed.

(** stability: the elements of one key keep their order *)
Lemma insert_desc_filter (p : Z) (x : A) (l : list A) :
  filter (λ z, key z = p) (insert_desc key x l) = filter (λ z, key z = p) (x :: l).
Proof.
  induction l as [|y l IH]; [done|]. cbn [insert_desc].
  destruct (key x <? key y) eqn:Hlt; [|done].
  apply Z.ltb_lt in Hlt.
  rewrite (filter_cons _ y), IH, !filter_cons.
  repeat case_decide; try done; lia.
Qed.

Lemma sorted_reverse_filter (p : Z) (l : list A) :
  filter (λ z, key z = p) (sorted_reverse key l) = filter (λ z, key z = p) l.
Proof.
  induction l as [|x l IH]; [done|]. cbn [sorted_reverse].
  by rewrite insert_desc_filter, !filter_cons, IH.
Qed.

(** in a list sorted this way, a later element never has the larger key *)
Lemma sorted_lookup (l : list A) (i j : nat) (a b : A) :
  StronglySorted (key_ge key) l →
  l !! i = Some a → l !! j = Some b → (i < j)%nat → key b ≤ key a.
Proof.
  intros Hs. revert i j. induction Hs as [|x l Hs IH Hx]; intros i j Hi Hj Hij.
  - done.
  - destruct j as [|j]; [lia|]. destruct i as [|i]; simplify_eq/=.
    + eapply Forall_forall in Hx; [exact Hx|]. by eapply list_elem_of_lookup_2.
    + eapply IH; eauto. lia.
Qed.

End SortedFacts.

Section SliceFacts.
Context {A : Type}.

Lemma slice_to_prefix (l : list A) (n : Z) : slice_to l n `prefix_of` l.
Proof. unfold slice_to. destruct (0 <=? n); apply prefix_take. Qed.

Lemma slice_to_length_nonneg (l : list A) (n : Z) :
  0 ≤ n → Z.of_nat (length (slice_to l n)) = Z.min n (Z.of_nat (length l)).
Proof.
  intros Hn. unfold slice_to.
  assert ((0 <=? n) = true) as -> by (by apply Z.leb_le).
  rewrite length_take. lia.
Qed.

Lemma slice_to_all (l : list A) (n : Z) :
  Z.of_nat (length l) ≤ n → slice_to l n = l.
Proof.
  intros Hn. unfold slice_to.
  assert ((0 <=? n) = true) as -> by (apply Z.leb_le; lia).
  apply take_ge. lia.
Qed.

Lemma prefix_filter (P : A → Prop) `{!∀ x, Decision (P x)} (l1 l2 : list A) :
  l1 `prefix_of` l2 → filter P l1 `prefix_of` filter P l2.
Proof. intros [k ->]. rewrite filter_app. by eexists. Qed.

Lemma prefix_sorted (R : A → A → Prop) (l1 l2 : list A) :
  l1 `prefix_of` l2 → StronglySorted R l2 → StronglySorted R l1.
Proof. intros [k ->]. apply StronglySorted_app_1_l. Qed.

End SliceFacts.

(** ** [_download_images]: the planner *)

Section PlannerFacts.

Variable list_of_set : list string → list string.
Implicit Types (self : PinterestImageScraper) (all_urls : list (string * bool)).

Lemma relevant_other_length all_urls :
  (length (relevant_urls all_urls) + length (other_urls all_urls)
   = length all_urls)%nat.
Proof.
  unfold relevant_urls, other_urls. rewrite !length_fmap.
  induction all_urls as [|[u []] l IH]; [done|..];
    rewrite !filter_cons; repeat case_decide; simplify_eq/=; lia.
Qed.

(** the priority of an address is the rank of the highest tier whose
    marker it carries: originals 5, 1200x 4, 736x 3, 474x 2, 236x 1,
    and 0 when it carries none *)
Lemma get_url_priority_tier (u : string) :
  (str_in "/originals/" u = true → get_url_priority u = 5)
  ∧ (str_in "/originals/" u = false → str_in "/1200x/" u = true →
     get_url_priority u = 4)
  ∧ (str_in "/originals/" u = false → str_in "/1200x/" u = false →
     str_in "/736x/" u = true → get_url_priority u = 3)
  ∧ (str_in "/originals/" u = false → str_in "/1200x/" u = false →
     str_in "/736x/" u = false → str_in "/474x/" u = true →
     get_url_priority u = 2)
  ∧ (str_in "/originals/" u = false → str_in "/1200x/" u = false →
     str_in "/736x/" u = false → str_in "/474x/" u = false →
     str_in "/236x/" u = true → get_url_priority u = 1)
  ∧ 0 ≤ get_url_priority u ≤ 5.
Proof.
  unfold get_url_priority.
  destruct (str_in "/originals/" u), (str_in "/1200x/" u), (str_in "/736x/" u),
    (str_in "/474x/" u), (str_in "/236x/" u); split_and!; intros; done || lia.
Qed.

(** the priority of an address is the rank of its tier, counted from the
    top: 5 for position 0 of [tier_markers] down to 1 for position 4,
    and 0 for the unknown tier *)
Lemma get_url_priority_tier_of (u : string) :
  get_url_priority u
  = match tier_of u with Some k => 5 - Z.of_nat k | None => 0 end.
Proof.
  unfold get_url_priority, tier_of, tier_markers. cbn [first_marker].
  destruct (str_in "/originals/" u); [done|].
  destruct (str_in "/1200x/" u); [done|].
  destruct (str_in "/736x/" u); [done|].
  destruct (str_in "/474x/" u); [done|].
  destruct (str_in "/236x/" u); done.
Qed.

Lemma first_marker_lt ms u k : first_marker ms u = Some k → (k < length ms)%nat.
Proof.
  revert k. induction ms as [|m ms IH]; intros k; cbn [first_marker]; [done|].
  destruct (str_in m u).
  - intros [= <-]. simpl. lia.
  - destruct (first_marker ms u) as [k'|]; [|done].
    intros [= <-]. specialize (IH k' eq_refl). simpl. lia.
Qed.

Lemma tier_of_lt u k : tier_of u = Some k → (k < 5)%nat.
Proof. apply first_marker_lt. Qed.

(** [first_marker] in terms of the markers: position [k] is the first
    marker that occurs *)
Lemma first_marker_Some ms u k :
  first_marker ms u = Some k ↔
  ∃ m, ms !! k = Some m ∧ str_in m u = true
       ∧ ∀ k' m', (k' < k)%nat → ms !! k' = Some m' → str_in m' u = false.
Proof.
  revert k. induction ms as [|m ms IH]; intros k; cbn [first_marker].
  - split; [done|]. by intros (m & Hm & _).
  - destruct (str_in m u) eqn:E.
    + split.
      * intros [= <-]. exists m. split_and!; [done..|]. intros; lia.
      * intros (m0 & Hm0 & Hin & Hbefore). destruct k as [|k]; [done|].
        specialize (Hbefore 0%nat m ltac:(lia) eq_refl). congruence.
    + rewrite fmap_Some. split.
      * intros (k0 & F & ->). apply IH in F as (m0 & Hm0 & Hin & Hbefore).
        exists m0. split_and!; [done..|].
        intros [|k'] m' Hk' Hm'; simplify_eq/=; [done|].
        eapply Hbefore; [|done]. lia.
      * intros (m0 & Hm0 & Hin & Hbefore). destruct k as [|k].
        { injection Hm0 as ->. congruence. }
        exists k. split; [|done]. apply IH. exists m0. split_and!; [done..|].
        intros k' m' Hk' Hm'. apply (Hbefore (S k') m'); [lia|done].
Qed.

Lemma first_marker_None ms u :
  first_marker ms u = None ↔ ∀ m, m ∈ ms → str_in m u = false.
Proof.
  induction ms as [|m ms IH]; cbn [first_marker].
  - split; [|done]. intros _ m Hm. by apply elem_of_nil in Hm.
  - destruct (str_in m u) eqn:E.
    + split; [done|]. intros H. specialize (H m (list_elem_of_here _ _)). congruence.
    + rewrite fmap_None, IH. split.
      * intros H m' [->|Hm']%elem_of_cons; [done|]. by apply H.
      * intros H m' Hm'. apply H. by apply list_elem_of_further.
Qed.

(** addresses have the same tier exactly when they have the same
    priority *)
Lemma tier_of_priority_iff (t : option nat) :
  ∃ p : Z, ∀ u, tier_of u = t ↔ get_url_priority u = p.
Proof.
  destruct t as [k|].
  - destruct (decide (k < 5)%nat) as [Hk|Hk].
    + exists (5 - Z.of_nat k). intros u. rewrite get_url_priority_tier_of. split.
      * by intros ->.
      * destruct (tier_of u) as [k'|] eqn:E; [|lia].
        apply tier_of_lt in E. intros ?. f_equal. lia.
    + exists (-1). intros u. rewrite get_url_priority_tier_of. split.
      * intros H%tier_of_lt. lia.
      * destruct (tier_of u) as [k'|] eqn:E; [apply tier_of_lt in E|]; lia.
  - exists 0. intros u. rewrite get_url_priority_tier_of.
    destruct (tier_of u) as [k'|] eqn:E; [|done].
    apply tier_of_lt in E. split; [done|lia].
Qed.

(** the plan is a prefix of the sorted selection *)
Lemma urls_to_download_prefix self all_urls :
  urls_to_download list_of_set self all_urls
  `prefix_of` sorted_reverse get_url_priority (unique_urls list_of_set self all_urls).
Proof.
  unfold urls_to_download.
  destruct (unique_urls list_of_set self all_urls) as [|u us] eqn:E;
    [by apply prefix_nil|].
  destruct (negb (limit self =? 0)); [apply slice_to_prefix|done].
Qed.

Lemma urls_to_download_length_le self all_urls :
  0 < limit self →
  Z.of_nat (length (urls_to_download list_of_set self all_urls)) ≤ limit self.
Proof.
  intros Hl. unfold urls_to_download.
  destruct (unique_urls list_of_set self all_urls) as [|u us]; [simpl; lia|].
  assert ((limit self =? 0) = false) as -> by (apply Z.eqb_neq; lia).
  cbn [negb]. rewrite slice_to_length_nonneg by lia. lia.
Qed.

(** when the relevant candidates do not fill the plan and the others
    can, the plan has [limit] entries *)
Lemma urls_to_download_length_filled self all_urls :
  is_ad_search self = false →
  Z.of_nat (length (relevant_urls all_urls)) < limit self →
  limit self - Z.of_nat (length (relevant_urls all_urls))
    ≤ Z.of_nat (length (other_urls all_urls)) →
  Z.of_nat (length (urls_to_download list_of_set self all_urls)) = limit self.
Proof.
  intros Had Hrel Hoth. unfold urls_to_download, unique_urls. rewrite Had.
  assert ((limit self <=? Z.of_nat (length (relevant_urls all_urls))) = false) as ->
    by (apply Z.leb_gt; lia).
  assert ((limit self =? 0) = false) as -> by (apply Z.eqb_neq; lia).
  cbn [negb].
  set (sel := relevant_urls all_urls ++ slice_to (other_urls all_urls) _).
  assert (Z.of_nat (length sel) = limit self) as Hsel.
  { unfold sel. rewrite length_app, Nat2Z.inj_add, slice_to_length_nonneg by lia. lia. }
  destruct sel as [|u us] eqn:E.
  - simpl in *. lia.
  - rewrite <- E in *. rewrite slice_to_length_nonneg by lia.
    rewrite sorted_reverse_length. lia.
Qed.

End PlannerFacts.

Section PlannerClaims.

Variable list_of_set : list string → list string.
Implicit Types (self : PinterestImageScraper) (all_urls : list (string * bool)).

(** C5 (scenario B), as amended.  Outside ad mode, with one relevant
    candidate, five others and a limit of 3, the plan has exactly three
    entries: the relevant one and the first two of the others in the
    order in which the candidate set is listed, arranged by descending
    tier priority.  The others are cut to two before anything is
    sorted, so their priorities play no part in which two are taken. *)
Theorem plan_one_relevant_five_others self all_urls (r o1 o2 o3 o4 o5 : string) :
  is_ad_search self = false →
  limit self = 3 →
  relevant_urls all_urls = [r] →
  other_urls all_urls = [o1; o2; o3; o4; o5] →
  urls_to_download list_of_set self all_urls
    = sorted_reverse get_url_priority [r; o1; o2]
  ∧ length (urls_to_download list_of_set self all_urls) = 3%nat
  ∧ urls_to_download list_of_set self all_urls ≡ₚ [r; o1; o2].
Proof.
  intros Had Hl Hr Ho.
  assert (urls_to_download list_of_set self all_urls
          = sorted_reverse get_url_priority [r; o1; o2]) as E.
  { unfold urls_to_download, unique_urls. rewrite Had, Hr, Ho, Hl.
    change (3 <=? Z.of_nat (length [r])) with false.
    change (slice_to [o1; o2; o3; o4; o5] (3 - Z.of_nat (length [r]))) with [o1; o2].
    change ([r] ++ [o1; o2]) with [r; o1; o2].
    change (negb (3 =? 0)) with true. cbv iota.
    apply slice_to_all. by rewrite sorted_reverse_length. }
  rewrite E. split; [done|]. split.
  - apply sorted_reverse_length.
  - apply sorted_reverse_perm.
Qed.

(** C6 (planner bound), as amended.  For a positive limit the plan has
    at most [limit] entries; and outside ad mode, when there are fewer
    relevant candidates than the limit and enough others to fill the
    shortfall, it has exactly [min(limit, number of candidates)]. *)
Theorem plan_length self all_urls :
  (0 < limit self →
   Z.of_nat (length (urls_to_download list_of_set self all_urls)) ≤ limit self)
  ∧ (is_ad_search self = false →
     Z.of_nat (length (relevant_urls all_urls)) < limit self →
     limit self - Z.of_nat (length (relevant_urls all_urls))
       ≤ Z.of_nat (length (other_urls all_urls)) →
     Z.of_nat (length (urls_to_download list_of_set self all_urls))
     = Z.min (limit self) (Z.of_nat (length all_urls))).
Proof.
  split.
  - apply urls_to_download_length_le.
  - intros Had Hrel Hoth.
    rewrite urls_to_download_length_filled by done.
    pose proof (relevant_other_length all_urls). lia.
Qed.

(** C7 (planner ordering).  The tier of an address is the
    highest-ranked tier whose marker occurs in it ([tier_of], with the
    ranking of [tier_markers]: originals > 1200x > 736x > 474x > 236x),
    and the unknown tier when no marker occurs.  In the plan an entry of
    a higher known tier stands before every entry of a lower known
    tier, and an entry of a known tier stands before every entry of the
    unknown tier; the entries of one tier stand in the order they had
    in the selection [unique_urls].  In terms of the sort key: the
    value of [get_url_priority] never increases along the plan, and the
    entries of one priority keep their order. *)
Theorem plan_ordering self all_urls :
  let plan := urls_to_download list_of_set self all_urls in
  (∀ (i j : nat) (a b : string) (ka kb : nat),
     plan !! i = Some a → plan !! j = Some b →
     tier_of a = Some ka → tier_of b = Some kb → (ka < kb)%nat →
     (i < j)%nat)
  ∧ (∀ (i j : nat) (a b : string) (ka : nat),
       plan !! i = Some a → plan !! j = Some b →
       tier_of a = Some ka → tier_of b = None →
       (i < j)%nat)
  ∧ (∀ t : option nat,
       filter (λ u, tier_of u = t) plan
       `prefix_of` filter (λ u, tier_of u = t)
                     (unique_urls list_of_set self all_urls))
  ∧ (∀ (i j : nat) (a b : string),
       plan !! i = Some a → plan !! j = Some b → (i < j)%nat →
       get_url_priority b ≤ get_url_priority a)
  ∧ (∀ p : Z,
       filter (λ u, get_url_priority u = p) plan
       `prefix_of` filter (λ u, get_url_priority u = p)
                     (unique_urls list_of_set self all_urls)).
Proof.
  intros plan.
  pose proof (urls_to_download_prefix list_of_set self all_urls) as Hpre.
  fold plan in Hpre.
  assert (StronglySorted (key_ge get_url_priority) plan) as Hsorted.
  { eapply prefix_sorted; [exact Hpre|]. apply sorted_reverse_sorted. }
  assert (∀ p : Z,
            filter (λ u, get_url_priority u = p) plan
            `prefix_of` filter (λ u, get_url_priority u = p)
                          (unique_urls list_of_set self all_urls)) as Hstable.
  { intros p.
    rewrite <- (sorted_reverse_filter get_url_priority p (unique_urls _ _ _)).
    by apply prefix_filter. }
  split_and!.
  - intros i j a b ka kb Hi Hj Ha Hb Hlt.
    destruct (decide (i < j)%nat) as [|Hn]; [done|exfalso].
    destruct (decide (i = j)) as [->|Hne].
    + rewrite Hi in Hj. injection Hj as ->. rewrite Ha in Hb. injection Hb as ->. lia.
    + pose proof (sorted_lookup get_url_priority plan j i b a Hsorted Hj Hi) as Hle.
      rewrite !get_url_priority_tier_of, Ha, Hb in Hle. lia.
  - intros i j a b ka Hi Hj Ha Hb.
    destruct (decide (i < j)%nat) as [|Hn]; [done|exfalso].
    destruct (decide (i = j)) as [->|Hne].
    + rewrite Hi in Hj. injection Hj as ->. congruence.
    + pose proof (sorted_lookup get_url_priority plan j i b a Hsorted Hj Hi) as Hle.
      rewrite !get_url_priority_tier_of, Ha, Hb in Hle.
      apply tier_of_lt in Ha. lia.
  - intros t. destruct (tier_of_priority_iff t) as [p Hp].
    rewrite !(list_filter_iff _ (λ u, get_url_priority u = p) _ Hp).
    apply Hstable.
  - intros i j a b Hi Hj Hij.
    by eapply (sorted_lookup get_url_priority plan i j).
  - exact Hstable.
Qed.

End PlannerClaims.

Lemma plan_one_relevant_five_others_witness :
  urls_to_download first_occurrences cats_limit_3 one_and_five
    = sorted_reverse get_url_priority
        ["https://i.pinimg.com/originals/r.jpg";
         "https://i.pinimg.com/a.jpg"; "https://i.pinimg.com/b.jpg"]
  ∧ length (urls_to_download first_occurrences cats_limit_3 one_and_five) = 3%nat
  ∧ urls_to_download first_occurrences cats_limit_3 one_and_five
    ≡ₚ ["https://i.pinimg.com/originals/r.jpg";
        "https://i.pinimg.com/a.jpg"; "https://i.pinimg.com/b.jpg"].
Proof.
  apply (plan_one_relevant_five_others first_occurrences cats_limit_3 one_and_five
           "https://i.pinimg.com/originals/r.jpg"
           "https://i.pinimg.com/a.jpg" "https://i.pinimg.com/b.jpg"
           "https://i.pinimg.com/originals/c.jpg"
           "https://i.pinimg.com/originals/d.jpg" "https://i.pinimg.com/e.jpg").
  - vm_compute; reflexivity.
  - vm_compute; reflexivity.
  - vm_compute; reflexivity.
  - vm_compute; reflexivity.
Defined.

Lemma plan_length_witness :
  Z.of_nat (length (urls_to_download first_occurrences cats_limit_3 one_and_five)) ≤ 3
  ∧ Z.of_nat (length (urls_to_download first_occurrences cats_limit_3 one_and_five))
    = Z.min 3 6.
Proof.
  destruct (plan_length first_occurrences cats_limit_3 one_and_five) as [Hle Heq].
  split.
  - apply Hle. vm_compute; reflexivity.
  - apply Heq.
    + vm_compute; reflexivity.
    + vm_compute; reflexivity.
    + vm_compute. discriminate.
Defined.

Lemma plan_ordering_witness :
  urls_to_download first_occurrences cats_limit_3 three_tiers
  = [ "https://i.pinimg.com/originals/r.jpg";
      "https://i.pinimg.com/236x/s.jpg";
      "https://i.pinimg.com/plain.jpg" ]
  ∧ tier_of "https://i.pinimg.com/originals/r.jpg" = Some 0%nat
  ∧ tier_of "https://i.pinimg.com/236x/s.jpg" = Some 4%nat
  ∧ tier_of "https://i.pinimg.com/plain.jpg" = None
  ∧ (0 < 1)%nat ∧ (1 < 2)%nat.
Proof.
  split_and!.
  - vm_compute; reflexivity.
  - vm_compute; reflexivity.
  - vm_compute; reflexivity.
  - vm_compute; reflexivity.
  - refine (proj1 (plan_ordering first_occurrences cats_limit_3 three_tiers)
              0%nat 1%nat "https://i.pinimg.com/originals/r.jpg"
              "https://i.pinimg.com/236x/s.jpg" 0%nat 4%nat _ _ _ _ _).
    + vm_compute; reflexivity.
    + vm_compute; reflexivity.
    + vm_compute; reflexivity.
    + vm_compute; reflexivity.
    + lia.
  - refine (proj1 (proj2 (plan_ordering first_occurrences cats_limit_3 three_tiers))
              1%nat 2%nat "https://i.pinimg.com/236x/s.jpg"
              "https://i.pinimg.com/plain.jpg" 4%nat _ _ _ _).
    + vm_compute; reflexivity.
    + vm_compute; reflexivity.
    + vm_compute; reflexivity.
    + vm_compute; reflexivity.
Defined.

(** C5 as stated fails: of the five others the plan takes the first
    two listed, both of priority 0, and leaves out two that sit at the
    originals tier. *)
Lemma plan_ignores_priority_of_others :
  let plan := urls_to_download first_occurrences cats_limit_3 one_and_five in
  relevant_urls one_and_five = ["https://i.pinimg.com/originals/r.jpg"]
  ∧ length (other_urls one_and_five) = 5%nat
  ∧ plan = ["https://i.pinimg.com/originals/r.jpg";
            "https://i.pinimg.com/a.jpg"; "https://i.pinimg.com/b.jpg"]
  ∧ "https://i.pinimg.com/originals/c.jpg" ∈ other_urls one_and_five
  ∧ ("https://i.pinimg.com/originals/c.jpg" ∉ plan)
  ∧ get_url_priority "https://i.pinimg.com/a.jpg"
    < get_url_priority "https://i.pinimg.com/originals/c.jpg".
Proof.
  split_and!.
  - vm_compute; reflexivity.
  - vm_compute; reflexivity.
  - vm_compute; reflexivity.
  - by_evaluation.
  - by_evaluation.
  - vm_compute; reflexivity.
Qed.

(** C6 as stated fails: a limit of 0 means no limit, and the plan then
    holds every relevant candidate. *)
Lemma plan_unbounded_at_limit_0 :
  limit cats_limit_0 = 0
  ∧ urls_to_download first_occurrences cats_limit_0 one_and_five
    = ["https://i.pinimg.com/originals/r.jpg"]
  ∧ ¬ (Z.of_nat (length (urls_to_download first_occurrences cats_limit_0 one_and_five))
       ≤ limit cats_limit_0).
Proof.
  split_and!.
  - vm_compute; reflexivity.
  - vm_compute; reflexivity.
  - vm_compute. intros H. by apply H.
Qed.

(** ** [_download_image]: fetching and verifying *)

Section Verifier.

Implicit Types (self : PinterestImageScraper) (env : FetchEnv)
               (filepath : string) (disk : gset string).

(** the lenient check of [PinterestImageScraper] *)
Lemma lenient_check_passes self (w h : Z) :
  min_width self ≤ w ∨ min_height self ≤ h →
  (w <? min_width self) && (h <? min_height self) = false.
Proof.
  intros [H|H]; apply andb_false_iff; [left|right]; by apply Z.ltb_ge.
Qed.

Lemma lenient_check_fails self (w h : Z) :
  w < min_width self → h < min_height self →
  (w <? min_width self) && (h <? min_height self) = true.
Proof. intros Hw Hh. apply andb_true_iff. split; by apply Z.ltb_lt. Qed.

(** an image that is too small in memory is rejected before any file
    is written *)
Lemma download_rejects_small self env filepath disk content_type (w h : Z) :
  goto env = GotoResponse 200 content_type →
  startswith content_type "image/" = true →
  body_ok env = true →
  decode_memory env = Some (w, h) →
  w < min_width self → h < min_height self →
  _download_image self env filepath disk = (false, disk).
Proof.
  intros Hg Hc Hb Hm Hw Hh. unfold _download_image.
  rewrite Hg, Hc, Hb, Hm. cbn [negb Z.eqb Pos.eqb].
  by rewrite lenient_check_fails.
Qed.

(** an image that meets one floor is accepted, whatever happens while
    it is stored, as long as the stored file is not measured smaller *)
Lemma download_accepts_one_floor self env filepath disk content_type (w h : Z) :
  goto env = GotoResponse 200 content_type →
  startswith content_type "image/" = true →
  body_ok env = true →
  decode_memory env = Some (w, h) →
  decode_file env = None ∨ decode_file env = Some (w, h) →
  min_width self ≤ w ∨ min_height self ≤ h →
  (_download_image self env filepath disk).1 = true.
Proof.
  intros Hg Hc Hb Hm Hf Hok. unfold _download_image.
  rewrite Hg, Hc, Hb, Hm. cbn [negb Z.eqb Pos.eqb].
  rewrite lenient_check_passes by done.
  destruct (write env); [|done..].
  destruct Hf as [->| ->]; [done|].
  by rewrite lenient_check_passes.
Qed.

(** a response that is not an image is refused before the body is read *)
Lemma download_refuses_content_type self env filepath disk content_type :
  goto env = GotoResponse 200 content_type →
  startswith content_type "image/" = false →
  _download_image self env filepath disk = (false, disk).
Proof. intros Hg Hc. unfold _download_image. by rewrite Hg, Hc. Qed.

(** [PinterestScraper]: a [True] result means that the file was
    fetched, stored, decoded, and met both floors *)
Lemma search_download_true (ps : PinterestScraper.t) env filepath disk :
  (PinterestScraper._download_image ps env filepath disk).1 = true →
  ∃ content_type w h,
    goto env = GotoResponse 200 content_type
    ∧ decode_file env = Some (w, h)
    ∧ PinterestScraper.min_width ps ≤ w
    ∧ PinterestScraper.min_height ps ≤ h.
Proof.
  unfold PinterestScraper._download_image.
  destruct (goto env) as [| |st ct]; [done..|].
  destruct (st =? 200) eqn:Hst; [|done]. apply Z.eqb_eq in Hst as ->.
  destruct (body_ok env); [|done]. cbn [negb].
  destruct (write env); [|done..].
  destruct (decode_file env) as [[w h]|]; [|done].
  destruct (_ || _) eqn:Hs; [done|]. intros _.
  apply orb_false_iff in Hs as [Hw Hh].
  apply Z.ltb_ge in Hw, Hh. eauto 10.
Qed.

Lemma board_download_true (bs : PinterestBoardScraper.t) env filepath disk :
  (PinterestBoardScraper._download_image bs env filepath disk).1 = true →
  ∃ content_type w h,
    goto env = GotoResponse 200 content_type
    ∧ decode_file env = Some (w, h)
    ∧ PinterestBoardScraper.min_width bs ≤ w
    ∧ PinterestBoardScraper.min_height bs ≤ h.
Proof.
  unfold PinterestBoardScraper._download_image.
  destruct (goto env) as [| |st ct]; [done..|].
  destruct (st =? 200) eqn:Hst; [|done]. apply Z.eqb_eq in Hst as ->.
  destruct (body_ok env); [|done]. cbn [negb].
  destruct (write env); [|done..].
  destruct (decode_file env) as [[w h]|]; [|done].
  destruct (_ || _) eqn:Hs; [done|]. intros _.
  apply orb_false_iff in Hs as [Hw Hh].
  apply Z.ltb_ge in Hw, Hh. eauto 10.
Qed.

End Verifier.

Section VerifierClaims.

Implicit Types (self : PinterestImageScraper) (env : FetchEnv)
               (filepath : string) (disk : gset string).

(** C2 (the success counter): what the code does on the failing
    inputs.  In [PinterestImageScraper] a download whose [page.goto]
    raises returns [True] and is counted, and so is a download whose
    bytes cannot be decoded, neither in memory nor from the stored
    file; [PinterestScraper] and [PinterestBoardScraper] return [False]
    on both. *)
Theorem download_counts_failures :
  _download_image cats world_goto_raises cats_000 ∅ = (true, ∅)
  ∧ downloaded_count (run_downloads cats [job_in world_goto_raises] ∅).1
    = downloaded_count cats + 1
  ∧ _download_image cats (world "image/jpeg" None) cats_000 ∅ = (true, {[ cats_000 ]})
  ∧ downloaded_count (run_downloads cats [job_in (world "image/jpeg" None)] ∅).1
    = downloaded_count cats + 1
  ∧ (PinterestScraper._download_image search_scraper world_goto_raises cats_000 ∅).1
    = false
  ∧ (PinterestScraper._download_image search_scraper (world "image/jpeg" None) cats_000 ∅).1
    = false
  ∧ (PinterestBoardScraper._download_image board_scraper world_goto_raises cats_000 ∅).1
    = false
  ∧ (PinterestBoardScraper._download_image board_scraper (world "image/jpeg" None)
       cats_000 ∅).1
    = false.
Proof. split_and!; vm_compute; reflexivity. Qed.

(** C3 (verifier leniency), as amended.  Take an image that is fetched
    with status 200 and an image content type, decodes to [w] by [h]
    in memory and from the stored file, and can be stored and deleted.
    [PinterestImageScraper] accepts it when it meets at least one
    floor, and rejects it without writing a file when it is below
    both.  [PinterestScraper] and [PinterestBoardScraper] are strict:
    they accept it only when it meets both floors, and when it is below
    either they return [False] and the file they wrote is removed. *)
Theorem verifier_floor_check self (ps : PinterestScraper.t)
    (bs : PinterestBoardScraper.t) env filepath disk content_type (w h : Z) :
  goto env = GotoResponse 200 content_type →
  startswith content_type "image/" = true →
  body_ok env = true →
  decode_memory env = Some (w, h) →
  write env = WriteOk →
  decode_file env = Some (w, h) →
  remove_ok env = true →
  close_ok env = true →
  (min_width self ≤ w ∨ min_height self ≤ h →
   _download_image self env filepath disk = (true, {[ filepath ]} ∪ disk))
  ∧ (w < min_width self ∧ h < min_height self →
     _download_image self env filepath disk = (false, disk))
  ∧ (PinterestScraper.min_width ps ≤ w ∧ PinterestScraper.min_height ps ≤ h →
     PinterestScraper._download_image ps env filepath disk
     = (true, {[ filepath ]} ∪ disk))
  ∧ (w < PinterestScraper.min_width ps ∨ h < PinterestScraper.min_height ps →
     (PinterestScraper._download_image ps env filepath disk).1 = false
     ∧ filepath ∉ (PinterestScraper._download_image ps env filepath disk).2)
  ∧ (PinterestBoardScraper.min_width bs ≤ w ∧ PinterestBoardScraper.min_height bs ≤ h →
     PinterestBoardScraper._download_image bs env filepath disk
     = (true, {[ filepath ]} ∪ disk))
  ∧ (w < PinterestBoardScraper.min_width bs ∨ h < PinterestBoardScraper.min_height bs →
     (PinterestBoardScraper._download_image bs env filepath disk).1 = false
     ∧ filepath ∉ (PinterestBoardScraper._download_image bs env filepath disk).2).
Proof.
  intros Hg Hc Hb Hm Hw Hf Hr Hcl.
  assert (∀ X : gset string, filepath ∉ ({[ filepath ]} ∪ X) ∖ {[ filepath ]}) as Hgone.
  { intros X [_ Hn]%elem_of_difference. apply Hn. by apply elem_of_singleton. }
  split_and!.
  - intros Hok. unfold _download_image.
    rewrite Hg, Hc, Hb, Hm, Hw, Hf. cbn [negb Z.eqb Pos.eqb].
    by rewrite lenient_check_passes.
  - intros [Hsw Hsh]. by eapply download_rejects_small.
  - intros [Hsw Hsh]. unfold PinterestScraper._download_image.
    rewrite Hg, Hb, Hw, Hf, Hcl. cbn [negb Z.eqb Pos.eqb].
    assert ((w <? PinterestScraper.min_width ps) || (h <? PinterestScraper.min_height ps)
            = false) as ->; [|done].
    apply orb_false_iff. split; by apply Z.ltb_ge.
  - intros Hs. unfold PinterestScraper._download_image.
    rewrite Hg, Hb, Hw, Hf, Hr. cbn [negb Z.eqb Pos.eqb].
    assert ((w <? PinterestScraper.min_width ps) || (h <? PinterestScraper.min_height ps)
            = true) as ->; [|split; [done|apply Hgone]].
    apply orb_true_iff. destruct Hs; [left|right]; by apply Z.ltb_lt.
  - intros [Hsw Hsh]. unfold PinterestBoardScraper._download_image.
    rewrite Hg, Hb, Hw, Hf, Hcl. cbn [negb Z.eqb Pos.eqb].
    assert ((w <? PinterestBoardScraper.min_width bs)
            || (h <? PinterestBoardScraper.min_height bs) = false) as ->; [|done].
    apply orb_false_iff. split; by apply Z.ltb_ge.
  - intros Hs. unfold PinterestBoardScraper._download_image.
    rewrite Hg, Hb, Hw, Hf, Hr. cbn [negb Z.eqb Pos.eqb].
    assert ((w <? PinterestBoardScraper.min_width bs)
            || (h <? PinterestBoardScraper.min_height bs) = true) as ->; [|split; [done|apply Hgone]].
    apply orb_true_iff. destruct Hs; [left|right]; by apply Z.ltb_lt.
Qed.

(** C4 (scenario D), as amended.  On a response with status 200 whose
    content type is not an image type, [PinterestImageScraper] returns
    [False] and writes nothing.  [PinterestScraper] and
    [PinterestBoardScraper] do not look at the content type: the body
    is written first, and when the stored file does not decode they
    return [False] and leave it on disk. *)
Theorem verifier_content_type self (ps : PinterestScraper.t)
    (bs : PinterestBoardScraper.t) env filepath disk content_type :
  goto env = GotoResponse 200 content_type →
  startswith content_type "image/" = false →
  _download_image self env filepath disk = (false, disk)
  ∧ (body_ok env = true → write env = WriteOk → decode_file env = None →
     PinterestScraper._download_image ps env filepath disk
     = (false, {[ filepath ]} ∪ disk)
     ∧ PinterestBoardScraper._download_image bs env filepath disk
       = (false, {[ filepath ]} ∪ disk)).
Proof.
  intros Hg Hc. split; [by eapply download_refuses_content_type|].
  intros Hb Hw Hf.
  unfold PinterestScraper._download_image, PinterestBoardScraper._download_image.
  by rewrite Hg, Hb, Hw, Hf.
Qed.

End VerifierClaims.

Lemma verifier_floor_check_witness :
  _download_image cats (world "image/jpeg" (Some (1000, 500))) cats_000 ∅
  = (true, {[ cats_000 ]} ∪ ∅).
Proof.
  apply (verifier_floor_check cats search_scraper board_scraper
           (world "image/jpeg" (Some (1000, 500))) cats_000 ∅ "image/jpeg" 1000 500).
  - vm_compute; reflexivity.
  - vm_compute; reflexivity.
  - vm_compute; reflexivity.
  - vm_compute; reflexivity.
  - vm_compute; reflexivity.
  - vm_compute; reflexivity.
  - vm_compute; reflexivity.
  - vm_compute; reflexivity.
  - left. vm_compute. discriminate.
Defined.

Lemma verifier_content_type_witness :
  _download_image cats (world "text/html" None) cats_000 ∅ = (false, ∅).
Proof.
  apply (verifier_content_type cats search_scraper board_scraper
           (world "text/html" None) cats_000 ∅ "text/html").
  - vm_compute; reflexivity.
  - vm_compute; reflexivity.
Defined.

(** C3 as stated fails for [PinterestScraper] and
    [PinterestBoardScraper]: an image of 1000 by 500 meets the width
    floor of 800, and both reject it. *)
Lemma strict_check_rejects_one_floor :
  let env := world "image/jpeg" (Some (1000, 500)) in
  PinterestScraper.min_width search_scraper ≤ 1000
  ∧ PinterestBoardScraper.min_width board_scraper ≤ 1000
  ∧ PinterestScraper._download_image search_scraper env cats_000 ∅ = (false, ∅)
  ∧ PinterestBoardScraper._download_image board_scraper env cats_000 ∅ = (false, ∅).
Proof.
  split_and!.
  - vm_compute. discriminate.
  - vm_compute. discriminate.
  - vm_compute; reflexivity.
  - vm_compute; reflexivity.
Qed.

(** C4 as stated fails for [PinterestScraper] and
    [PinterestBoardScraper]: the answer is [False], but the page that
    came back as [text/html] has been written to the destination and
    stays there. *)
Lemma html_body_is_written :
  let env := world "text/html" None in
  PinterestScraper._download_image search_scraper env cats_000 ∅
  = (false, {[ cats_000 ]})
  ∧ cats_000 ∈ (PinterestScraper._download_image search_scraper env cats_000 ∅).2
  ∧ PinterestBoardScraper._download_image board_scraper env cats_000 ∅
    = (false, {[ cats_000 ]})
  ∧ cats_000 ∈ (PinterestBoardScraper._download_image board_scraper env cats_000 ∅).2.
Proof.
  split_and!.
  - vm_compute; reflexivity.
  - by_evaluation.
  - vm_compute; reflexivity.
  - by_evaluation.
Qed.

(** ** [_handle_response]: what a run of the collector keeps *)

Section CollectorRun.

Implicit Types (self : PinterestImageScraper) (r : Response) (rs : list Response).

Lemma same_settings_refl self : same_settings self self.
Proof. by repeat split. Qed.

Lemma same_settings_trans self1 self2 self3 :
  same_settings self1 self2 → same_settings self2 self3 → same_settings self1 self3.
Proof.
  unfold same_settings. intros (?&?&?&?&?&?&?&?) (?&?&?&?&?&?&?&?).
  split_and!; congruence.
Qed.

Lemma note_search_response_settings self r :
  same_settings self (note_search_response self r)
  ∧ image_urls (note_search_response self r) = image_urls self
  ∧ relevant_image_ids self ⊆ relevant_image_ids (note_search_response self r)
  ∧ (inside_search_results self = true →
     inside_search_results (note_search_response self r) = true).
Proof.
  unfold note_search_response.
  destruct (_ || _); [|by split_and!; [apply same_settings_refl|..]].
  destruct (existsb _ _); [|by split_and!; [apply same_settings_refl|..]].
  destruct (String.eqb (resource_type r) "xhr"); cbn.
  - split_and!; [by repeat split|done| |done]. apply union_subseteq_r.
  - split_and!; [by repeat split|done..].
Qed.

(** one step of the handler: either the candidate set stays, or it was
    below the ceiling and gains one candidate *)
Lemma handle_response_step self r :
  same_settings self (_handle_response self r)
  ∧ relevant_image_ids self ⊆ relevant_image_ids (_handle_response self r)
  ∧ (inside_search_results self = true →
     inside_search_results (_handle_response self r) = true)
  ∧ (image_urls (_handle_response self r) = image_urls self
     ∨ ∃ c, image_urls (_handle_response self r) = {[ c ]} ∪ image_urls self
            ∧ (limit self = 0 ∨ Z.of_nat (size (image_urls self)) < limit self * 3)).
Proof.
  unfold _handle_response.
  destruct (negb (start_collecting self));
    [by split_and!; [apply same_settings_refl|..|left]|].
  destruct (negb (limit self =? 0) && _) eqn:Hc;
    [by split_and!; [apply same_settings_refl|..|left]|].
  destruct (note_search_response_settings self r) as (Hs & Hi & Hids & Hin).
  assert (limit self = 0 ∨ Z.of_nat (size (image_urls self)) < limit self * 3) as Hbelow.
  { apply andb_false_iff in Hc as [Hc|Hc].
    - left. apply negb_false_iff in Hc. by apply Z.eqb_eq.
    - right. by apply Z.leb_gt. }
  destruct (_ && (status r =? 200)); [|by split_and!; [..|left]].
  destruct (candidate_of _ _) as [c|]; [|by split_and!; [..|left]].
  cbn. split_and!; [exact Hs|exact Hids|exact Hin|].
  right. exists c. by rewrite Hi.
Qed.

End CollectorRun.

Section CollectorRunProperties.

Implicit Types (self : PinterestImageScraper) (r : Response) (rs : list Response).

(** Observations that arrive before [start_scraping] has switched
    collecting on (the login phase) leave the whole run context as it
    was. *)
Theorem handle_all_before_collecting self rs :
  start_collecting self = false → handle_all self rs = self.
Proof.
  intros Hs. unfold handle_all. induction rs as [|r rs IH]; [done|].
  cbn [foldl]. unfold _handle_response at 2. by rewrite Hs.
Qed.

Lemma handle_all_before_collecting_witness :
  handle_all cats [image_response picture_236; cats_search_xhr] = cats.
Proof. apply handle_all_before_collecting. vm_compute; reflexivity. Defined.

(** With a positive limit, a candidate set that holds at most three
    times the limit keeps that bound through any stream of
    observations: the handler adds one candidate at a time, and only
    while the set is below the ceiling. *)
Theorem handle_all_ceiling self rs :
  0 < limit self →
  Z.of_nat (size (image_urls self)) ≤ limit self * 3 →
  Z.of_nat (size (image_urls (handle_all self rs))) ≤ limit self * 3.
Proof.
  unfold handle_all. revert self. induction rs as [|r rs IH]; intros self Hl Hs; [done|].
  cbn [foldl].
  destruct (handle_response_step self r) as ((_&_&_&_&Hlim&_) & _ & _ & Hstep).
  rewrite <- Hlim. apply IH; rewrite Hlim; [done|].
  destruct Hstep as [->|(c & -> & Hb)]; [done|].
  pose proof (size_add_le c (image_urls self)). lia.
Qed.

Lemma handle_all_ceiling_witness :
  Z.of_nat (size (image_urls
     (handle_all cats_collecting [image_response picture_236; cats_search_xhr])))
  ≤ limit cats_collecting * 3.
Proof.
  apply handle_all_ceiling.
  - vm_compute; reflexivity.
  - vm_compute. discriminate.
Defined.

(** A run only accumulates: through any stream of observations the
    candidate set and the set of known pin identifiers grow, the flag
    [inside_search_results] is never switched back off, and the
    settings of the scraper are not touched. *)
Theorem handle_all_accumulates self rs :
  image_urls self ⊆ image_urls (handle_all self rs)
  ∧ relevant_image_ids self ⊆ relevant_image_ids (handle_all self rs)
  ∧ (inside_search_results self = true →
     inside_search_results (handle_all self rs) = true)
  ∧ same_settings self (handle_all self rs).
Proof.
  unfold handle_all. revert self. induction rs as [|r rs IH]; intros self.
  - split_and!; [done..|apply same_settings_refl].
  - cbn [foldl].
    destruct (handle_response_step self r) as (Hs & Hids & Hin & Hstep).
    destruct (IH (_handle_response self r)) as (Hu' & Hids' & Hin' & Hs').
    split_and!.
    + etrans; [|exact Hu'].
      destruct Hstep as [->|(c & -> & _)]; [done|apply union_subseteq_r].
    + by etrans.
    + auto.
    + by eapply same_settings_trans.
Qed.

Lemma handle_all_accumulates_witness :
  inside_search_results
    (handle_all
       (handle_all cats_collecting [document_response cats_search_page])
       [image_response picture_236; cats_search_xhr]) = true.
Proof.
  refine (proj1 (proj2 (proj2 (handle_all_accumulates
           (handle_all cats_collecting [document_response cats_search_page])
           [image_response picture_236; cats_search_xhr]))) _).
  vm_compute; reflexivity.
Defined.

End CollectorRunProperties.

(** ** [_handle_response]: which observations become candidates *)

Section CandidateProperties.

Implicit Types (self : PinterestImageScraper) (r : Response) (u : string).

(** Inside the results of a search that is neither a board nor an ad
    search, once pin identifiers are known, an image becomes a
    candidate only if its address contains one of them, and it is then
    flagged relevant. *)
Theorem candidate_needs_known_id self u (high : string) (flag : bool) :
  inside_search_results self = true →
  is_board self = false →
  is_ad_search self = false →
  relevant_image_ids self ≠ ∅ →
  candidate_of self u = Some (high, flag) →
  flag = true ∧ ∃ pin_id, pin_id ∈ relevant_image_ids self ∧ str_in pin_id u = true.
Proof.
  intros Hin Hb Had Hids Hc.
  assert (is_relevant self u = true) as Hrel.
  { unfold candidate_of in Hc. rewrite Hin, Hb, Had in Hc.
    rewrite bool_decide_eq_false_2 in Hc by done. cbn [negb andb] in Hc.
    by destruct (is_relevant self u). }
  split.
  - apply candidate_of_flag in Hc as ->. unfold flag_of_state.
    rewrite bool_decide_eq_false_2 by done. apply orb_true_r.
  - unfold is_relevant in Hrel. rewrite Hin, Hb, Had in Hrel.
    cbn [negb orb] in Hrel. rewrite orb_false_r in Hrel.
    apply existsb_exists in Hrel as (pin_id & Hp & Hs).
    exists pin_id. split; [|done].
    apply elem_of_elements. by apply list_elem_of_In.
Qed.

(** For a board, for an ad search, and as long as the scraper has not
    seen the search results, nothing is filtered by relevance: every
    candidate is flagged relevant. *)
Theorem candidate_permissive self u (high : string) (flag : bool) :
  is_board self = true ∨ is_ad_search self = true ∨ inside_search_results self = false →
  candidate_of self u = Some (high, flag) →
  flag = true.
Proof.
  intros Hp Hc. apply candidate_of_flag in Hc as ->. unfold flag_of_state.
  destruct Hp as [->|[->| ->]]; cbn [negb orb]; by rewrite ?orb_true_r.
Qed.

(** What never becomes a candidate: an address that does not look like
    a raster image at a known tier or on the image host, an address
    with one of the interface-asset fragments, and, when a configured
    floor exceeds 100, an address with a micro-thumbnail segment (also
    one that carries the originals marker).  The reference of a
    candidate is the normalised address. *)
Theorem candidate_only_if self u (high : string) (flag : bool) :
  candidate_of self u = Some (high, flag) →
  any_in [".jpg"; ".jpeg"; ".png"; ".webp"] (lower u) = true
  ∧ any_in ["/originals/"; "/236x/"; "/474x/"; "/736x/"; "/1200x/"; "i.pinimg.com"] u = true
  ∧ any_in (skip_patterns self) (lower u) = false
  ∧ (str_in "/60x60/" u || str_in "/75x75/" u = true →
     min_width self ≤ 100 ∧ min_height self ≤ 100)
  ∧ _convert_to_high_res self u = Some high.
Proof.
  intros Hc. pose proof (candidate_of_reference _ _ _ _ Hc) as Href.
  unfold candidate_of in Hc.
  destruct (_ && negb (is_relevant self u)); [done|].
  destruct ((str_in _ u || _) && _) eqn:Hmicro; [done|].
  destruct (any_in _ (lower u) && _) eqn:Hshape; [|done].
  rewrite Href in Hc.
  destruct (any_in (skip_patterns self) (lower u)) eqn:Hskip; [done|].
  apply andb_true_iff in Hshape as [Hext Htier].
  split_and!; try done.
  intros Hm. rewrite Hm in Hmicro. cbn [andb] in Hmicro.
  apply orb_false_iff in Hmicro as [Hw Hh]. split; by apply Z.ltb_ge.
Qed.

(** A response that is not an image, or whose status is not 200, adds
    no candidate. *)
Theorem handle_response_not_image self r :
  resource_type r ≠ "image" ∨ status r ≠ 200 →
  image_urls (_handle_response self r) = image_urls self.
Proof.
  intros Hr. unfold _handle_response.
  destruct (negb (start_collecting self)); [done|].
  destruct (_ && (_ <=? _)); [done|].
  destruct (note_search_response_settings self r) as (_ & Hi & _).
  assert (String.eqb (resource_type r) "image" && (status r =? 200) = false) as ->;
    [|done].
  apply andb_false_iff. destruct Hr as [Hr|Hr]; [left|right].
  - by apply String.eqb_neq.
  - by apply Z.eqb_neq.
Qed.

End CandidateProperties.

Lemma candidate_needs_known_id_witness :
  let self := handle_all cats_collecting
                [document_response cats_search_page; cats_search_xhr] in
  candidate_of self picture_474 = Some (picture_originals, true)
  ∧ ∃ pin_id, pin_id ∈ relevant_image_ids self ∧ str_in pin_id picture_474 = true.
Proof.
  split; [vm_compute; reflexivity|].
  apply (candidate_needs_known_id
           (handle_all cats_collecting
              [document_response cats_search_page; cats_search_xhr])
           picture_474 picture_originals true).
  - vm_compute; reflexivity.
  - vm_compute; reflexivity.
  - vm_compute; reflexivity.
  - intros H. apply (f_equal elements) in H. vm_compute in H. discriminate H.
  - vm_compute; reflexivity.
Defined.

Lemma candidate_permissive_witness :
  inside_search_results cats_collecting = false
  ∧ ∃ flag, candidate_of cats_collecting picture_236 = Some (picture_originals, flag)
            ∧ flag = true.
Proof.
  split; [vm_compute; reflexivity|].
  exists true. split; [vm_compute; reflexivity|].
  apply (candidate_permissive cats_collecting picture_236 picture_originals true).
  - right. right. vm_compute; reflexivity.
  - vm_compute; reflexivity.
Defined.

Lemma candidate_only_if_witness :
  _convert_to_high_res cats_collecting picture_236 = Some picture_originals.
Proof.
  apply (candidate_only_if cats_collecting picture_236 picture_originals true).
  vm_compute; reflexivity.
Defined.

Lemma handle_response_not_image_witness :
  image_urls (_handle_response cats_collecting (document_response cats_search_page))
  = image_urls cats_collecting.
Proof.
  apply handle_response_not_image. left. discriminate.
Defined.

(** ** The identifier harvest *)

Section IdHarvest.

Implicit Types (self : PinterestImageScraper) (r : Response) (s : string).

Lemma take_digits_all_digits s :
  all_digits (str_take (PinimgRegex.digits_len s) s) = true.
Proof.
  induction s as [|c s IH]; [done|]. cbn [PinimgRegex.digits_len].
  destruct (PinimgRegex.is_digit c) eqn:Hc; [|done].
  cbn [str_take all_digits]. by rewrite Hc, IH.
Qed.

Lemma take_digits_nonempty s :
  (0 < PinimgRegex.digits_len s)%nat →
  str_take (PinimgRegex.digits_len s) s ≠ EmptyString.
Proof.
  destruct s as [|c s]; cbn [PinimgRegex.digits_len]; [lia|].
  destruct (PinimgRegex.is_digit c); [done|lia].
Qed.

Lemma id_match_here_digits s (g : string) (n : nat) :
  IdRegex.match_here s = Some (g, n) → g ≠ EmptyString ∧ all_digits g = true.
Proof.
  unfold IdRegex.match_here.
  destruct (startswith s IdRegex.key); [|done].
  destruct (str_drop _ (str_drop 5 s)) as [|c r2]; [done|].
  destruct (_ && _) eqn:Hm; [|done]. intros [= <- _].
  apply andb_true_iff in Hm as [Hm _]. apply andb_true_iff in Hm as [_ Hd].
  apply Nat.ltb_lt in Hd.
  split; [by apply take_digits_nonempty|apply take_digits_all_digits].
Qed.

Lemma id_finditer_digits (text g : string) :
  g ∈ IdRegex.finditer text → g ≠ EmptyString ∧ all_digits g = true.
Proof.
  unfold IdRegex.finditer. generalize O as skip.
  induction text as [|c text IH]; intros skip Hg; [by apply not_elem_of_nil in Hg|].
  cbn [IdRegex.finditer_from] in Hg. destruct skip as [|k]; [|by eapply IH].
  destruct (IdRegex.match_here (String c text)) as [[g' n]|] eqn:Hm; [|by eapply IH].
  apply elem_of_cons in Hg as [->|Hg]; [by eapply id_match_here_digits|by eapply IH].
Qed.

(** The handler adds pin identifiers only from an [xhr] response of the
    search page, and every identifier it adds is a non-empty string of
    decimal digits. *)
Theorem handle_response_new_ids self r (pin_id : string) :
  pin_id ∈ relevant_image_ids (_handle_response self r) →
  pin_id ∈ relevant_image_ids self
  ∨ (resource_type r = "xhr"
     ∧ str_in "search/pins" (url r) = true
     ∧ pin_id ≠ EmptyString ∧ all_digits pin_id = true).
Proof.
  unfold _handle_response.
  destruct (negb (start_collecting self)); [by left|].
  destruct (_ && (_ <=? _)); [by left|].
  assert (pin_id ∈ relevant_image_ids (note_search_response self r) →
          pin_id ∈ relevant_image_ids self
          ∨ (resource_type r = "xhr" ∧ str_in "search/pins" (url r) = true
             ∧ pin_id ≠ EmptyString ∧ all_digits pin_id = true)) as Hnote.
  { unfold note_search_response.
    destruct (_ || _); [|by left].
    destruct (existsb _ _) eqn:Hex; [|by left].
    destruct (String.eqb (resource_type r) "xhr") eqn:Hx; [|by left].
    cbn. intros [Hp|Hp]%elem_of_union; [|by left]. right.
    apply String.eqb_eq in Hx.
    apply existsb_exists in Hex as (term & _ & [Hsp _]%andb_true_iff).
    apply elem_of_list_to_set in Hp. unfold harvested_ids in Hp.
    destruct (text r) as [t|]; [|by apply not_elem_of_nil in Hp].
    destruct (_ && _); [|by apply not_elem_of_nil in Hp].
    apply id_finditer_digits in Hp as [? ?]. done. }
  destruct (_ && (_ =? 200)); [|done].
  destruct (candidate_of _ _); [|done]. done.
Qed.

End IdHarvest.

Lemma handle_response_new_ids_witness :
  "1234567" ∈ relevant_image_ids cats_collecting
  ∨ (resource_type cats_search_xhr = "xhr"
     ∧ str_in "search/pins" (url cats_search_xhr) = true
     ∧ "1234567" ≠ EmptyString ∧ all_digits "1234567" = true).
Proof.
  apply (handle_response_new_ids cats_collecting cats_search_xhr "1234567").
  by_evaluation.
Defined.

(** ** [_convert_to_high_res]: rejection and rewriting *)

Section NormaliserProperties.

Implicit Types (self : PinterestImageScraper) (u : string).

(** The normaliser rejects an address exactly when the address has no
    originals marker, has a micro-thumbnail segment, and one of the
    configured floors exceeds 100. *)
Theorem convert_rejects_iff self u :
  _convert_to_high_res self u = None
  ↔ str_in "/originals/" u = false
    ∧ str_in "/60x60/" u || str_in "/75x75/" u = true
    ∧ (100 < min_width self ∨ 100 < min_height self).
Proof.
  unfold _convert_to_high_res.
  destruct (str_in "/originals/" u); [split; [done|by intros [? _]]|].
  destruct (str_in "/60x60/" u || str_in "/75x75/" u).
  - destruct ((100 <? min_width self) || (100 <? min_height self)) eqn:Hm.
    + split; [|done]. intros _. split_and!; [done..|].
      apply orb_true_iff in Hm as [Hm|Hm]; [left|right]; by apply Z.ltb_lt.
    + split; [done|]. intros (_ & _ & Hf).
      apply orb_false_iff in Hm as [Hw Hh]. apply Z.ltb_ge in Hw, Hh. lia.
  - split; [|by intros (_ & ? & _)].
    destruct (str_in "/236x/" u); [done|]. destruct (str_in "/474x/" u); [done|].
    destruct (str_in "/736x/" u); [done|]. destruct (str_in "/1200x/" u); [done|].
    by destruct (PinimgRegex.search u) as [[[g1 g2] g3]|].
Qed.

(** Whatever the normaliser returns is either the address it was given
    or an address that carries the originals marker. *)
Theorem convert_unchanged_or_originals self u (high : string) :
  _convert_to_high_res self u = Some high →
  high = u ∨ str_in "/originals/" high = true.
Proof. apply convert_result. Qed.

Lemma replace_absent (s old new : string) :
  str_in old s = false → replace s old new = s.
Proof.
  unfold replace. induction s as [|c s IH]; [done|].
  cbn [str_in replace_from]. intros [Hp Hs]%orb_false_iff.
  rewrite Hp. f_equal. auto.
Qed.

Lemma str_in_cons_false (p : string) (c : ascii) (s : string) :
  str_in p (String c s) = false → str_in p s = false.
Proof. cbn [str_in]. by intros [_ ?]%orb_false_iff. Qed.

End NormaliserProperties.

Lemma convert_unchanged_or_originals_witness :
  picture_originals = picture_236 ∨ str_in "/originals/" picture_originals = true.
Proof.
  apply (convert_unchanged_or_originals cats picture_236 picture_originals).
  vm_compute; reflexivity.
Defined.

Section TierRewrite.

Implicit Types (self : PinterestImageScraper) (u : string).

Lemma append_nil (t : string) : EmptyString +:+ t = t.
Proof. reflexivity. Qed.

Lemma no_marker_after_slash (rest : string) :
  any_in known_markers ("/" +:+ rest) = false →
  Forall (λ m, str_in m ("/" +:+ rest) = false) known_markers.
Proof.
  unfold any_in. intros H. apply Forall_forall. intros m Hm.
  destruct (str_in m ("/" +:+ rest)) eqn:E; [|done].
  rewrite <- H. symmetry. apply existsb_exists. exists m.
  split; [by apply list_elem_of_In|done].
Qed.

Lemma startswith_empty (s : string) : startswith s EmptyString = true.
Proof. by destruct s. Qed.

(** An address on the image host at one of the four thumbnail tiers,
    whose remaining path carries no further marker, is rewritten to the
    same path at the originals tier. *)
Theorem convert_rewrites_tier self (tier rest : string) :
  tier ∈ resolution_patterns →
  any_in known_markers ("/" +:+ rest) = false →
  _convert_to_high_res self ("https://i.pinimg.com" +:+ tier +:+ rest)
  = Some ("https://i.pinimg.com/originals/" +:+ rest).
Proof.
  intros Ht Hm. apply no_marker_after_slash in Hm.
  repeat (apply Forall_cons in Hm as [? Hm]). clear Hm.
  rewrite !append_cons, !append_nil in *.
  unfold resolution_patterns in Ht.
  repeat (apply elem_of_cons in Ht as [->|Ht]); [..|by apply elem_of_nil in Ht].
  all: rewrite !append_cons, !append_nil; unfold _convert_to_high_res, replace.
  all: cbn [str_in startswith Ascii.eqb Bool.eqb orb andb] in *.
  all: repeat match goal with
       | H : _ || _ = false |- _ => apply orb_false_iff in H as [? ?]
       end.
  all: repeat match goal with
       | H : startswith _ _ = false |- _ => rewrite H; clear H
       | H : str_in _ _ = false |- context [str_in _ _] => rewrite H
       end.
  all: rewrite ?startswith_empty; cbn [orb].
  all: cbn [replace_from startswith Ascii.eqb Bool.eqb String.length Nat.pred].
  all: rewrite ?startswith_empty.
  all: cbn [replace_from startswith Ascii.eqb Bool.eqb String.length Nat.pred].
  all: rewrite !append_cons, !append_nil.
  all: do 2 f_equal.
  all: repeat f_equal.
  all: by apply (replace_absent rest _ "/originals/").
Qed.

Lemma convert_rewrites_tier_witness :
  _convert_to_high_res cats ("https://i.pinimg.com" +:+ "/236x/" +:+ "ab/cd/ef/img.jpg")
  = Some ("https://i.pinimg.com/originals/" +:+ "ab/cd/ef/img.jpg").
Proof.
  apply convert_rewrites_tier.
  - by_evaluation.
  - vm_compute; reflexivity.
Defined.

End TierRewrite.

Section RegexRewrite.

Implicit Types (self : PinterestImageScraper) (s t : string).

Lemma str_drop_append s t : str_drop (String.length s) (s +:+ t) = t.
Proof. induction s as [|c s IH]; [by destruct t|]. by rewrite append_cons. Qed.

Lemma str_take_append s t : str_take (String.length s) (s +:+ t) = s.
Proof.
  induction s as [|c s IH]; [by destruct t|].
  rewrite append_cons. cbn [String.length str_take]. by rewrite IH.
Qed.

Lemma str_take_all s : str_take (String.length s) s = s.
Proof. induction s as [|c s IH]; [done|]. cbn. by rewrite IH. Qed.

Lemma append_assoc s t (r : string) : (s +:+ t) +:+ r = s +:+ t +:+ r.
Proof. induction s as [|c s IH]; [done|]. by rewrite !append_cons, IH. Qed.

Lemma append_length s t :
  String.length (s +:+ t) = (String.length s + String.length t)%nat.
Proof. induction s as [|c s IH]; [done|]. rewrite append_cons. cbn. by rewrite IH. Qed.

Lemma digits_len_append (w : string) (c : ascii) (r : string) :
  all_digits w = true → PinimgRegex.is_digit c = false →
  PinimgRegex.digits_len (w +:+ String c r) = String.length w.
Proof.
  intros Hw Hc. induction w as [|d w IH].
  - rewrite append_nil. cbn. by rewrite Hc.
  - rewrite append_cons. cbn in *. apply andb_true_iff in Hw as [-> Hw]. by rewrite IH.
Qed.

Lemma tail_len_extension (p ext : string) :
  no_newline p = true → ext ∈ image_extensions →
  PinimgRegex.tail_len (p +:+ ext) = Some (String.length (p +:+ ext)).
Proof.
  intros Hp Hext. induction p as [|c p IH].
  - rewrite append_nil. unfold image_extensions in Hext.
    repeat (apply elem_of_cons in Hext as [->|Hext]); [done..|by apply elem_of_nil in Hext].
  - rewrite append_cons. cbn [no_newline] in Hp.
    apply andb_true_iff in Hp as [Hc Hp]. apply negb_true_iff in Hc.
    cbn [PinimgRegex.tail_len String.length]. by rewrite Hc, IH.
Qed.

Lemma group3_extension (p ext : string) :
  p ≠ EmptyString → no_newline p = true → ext ∈ image_extensions →
  PinimgRegex.group3 (p +:+ ext) = Some (p +:+ ext).
Proof.
  intros Hne Hp Hext. destruct p as [|c p]; [done|].
  rewrite append_cons. cbn [no_newline] in Hp.
  apply andb_true_iff in Hp as [Hc Hp]. apply negb_true_iff in Hc.
  unfold PinimgRegex.group3. rewrite Hc, tail_len_extension by done.
  f_equal. apply (str_take_all (String c (p +:+ ext))).
Qed.

Lemma search_here s (g : string * string * string) :
  PinimgRegex.match_here s = Some g → PinimgRegex.search s = Some g.
Proof. intros H. destruct s; cbn [PinimgRegex.search]; by rewrite H. Qed.

Lemma search_other_width (width path ext : string) :
  width ≠ EmptyString → all_digits width = true →
  path ≠ EmptyString → no_newline path = true →
  ext ∈ image_extensions →
  PinimgRegex.search (PinimgRegex.host +:+ width +:+ "x/" +:+ path +:+ ext)
  = Some (PinimgRegex.host, width +:+ "x/", path +:+ ext).
Proof.
  intros Hw Hd Hp Hn Hext. apply search_here. unfold PinimgRegex.match_here.
  rewrite startswith_append, str_drop_append.
  change ("x/" +:+ path +:+ ext) with (String "x" ("/" +:+ path +:+ ext)).
  rewrite digits_len_append by done.
  assert ((0 <? String.length width)%nat = true) as ->.
  { apply Nat.ltb_lt. destruct width; [done|cbn; lia]. }
  rewrite str_drop_append. cbn [andb].
  change (String "x" ("/" +:+ path +:+ ext)) with ("x/" +:+ path +:+ ext).
  rewrite startswith_append.
  rewrite <- (append_assoc width "x/").
  replace (String.length width + 2)%nat with (String.length (width +:+ "x/"))
    by (rewrite append_length; done).
  rewrite str_drop_append, str_take_append, group3_extension by done.
  done.
Qed.

(** An address on the image host whose first path segment is any other
    width tier (digits followed by [x], such as [564x]) and which ends
    in one of the image extensions is rewritten to the same path under
    [originals/]. *)
Theorem convert_rewrites_other_width self (width path ext : string) :
  width ≠ EmptyString → all_digits width = true →
  path ≠ EmptyString → no_newline path = true →
  ext ∈ image_extensions →
  any_in known_markers
    (PinimgRegex.host +:+ width +:+ "x/" +:+ path +:+ ext) = false →
  _convert_to_high_res self (PinimgRegex.host +:+ width +:+ "x/" +:+ path +:+ ext)
  = Some (PinimgRegex.host +:+ "originals/" +:+ path +:+ ext).
Proof.
  intros Hw Hd Hp Hn Hext Hm.
  unfold any_in, known_markers in Hm. cbn [existsb] in Hm.
  repeat (apply orb_false_iff in Hm as [? Hm]).
  unfold _convert_to_high_res.
  repeat match goal with
         | H : str_in _ _ = false |- _ => rewrite H; clear H
         end.
  cbn [orb]. by rewrite search_other_width.
Qed.

End RegexRewrite.

Lemma convert_rewrites_other_width_witness :
  _convert_to_high_res cats
    (PinimgRegex.host +:+ "564" +:+ "x/" +:+ "ab/cd/ef/img" +:+ ".jpg")
  = Some (PinimgRegex.host +:+ "originals/" +:+ "ab/cd/ef/img" +:+ ".jpg").
Proof.
  apply convert_rewrites_other_width.
  - discriminate.
  - vm_compute; reflexivity.
  - discriminate.
  - vm_compute; reflexivity.
  - by_evaluation.
  - vm_compute; reflexivity.
Defined.

(** ** [_download_images]: what the plan contains *)

Section PlanContents.

Variable list_of_set : list string → list string.
Implicit Types (self : PinterestImageScraper) (all_urls : list (string * bool)).

Lemma elem_of_relevant_urls all_urls (u : string) :
  u ∈ relevant_urls all_urls ↔ (u, true) ∈ all_urls.
Proof.
  unfold relevant_urls. rewrite list_elem_of_fmap. split.
  - intros ([u' f] & -> & [Hf Hin]%list_elem_of_filter). cbn in *. by subst.
  - intros Hin. exists (u, true). split; [done|]. by apply list_elem_of_filter.
Qed.

Lemma elem_of_other_urls all_urls (u : string) :
  u ∈ other_urls all_urls ↔ (u, false) ∈ all_urls.
Proof.
  unfold other_urls. rewrite list_elem_of_fmap. split.
  - intros ([u' f] & -> & [Hf Hin]%list_elem_of_filter). cbn in *. by subst.
  - intros Hin. exists (u, false). split; [done|]. by apply list_elem_of_filter.
Qed.

Lemma elem_of_prefix {A : Type} (l1 l2 : list A) (x : A) :
  l1 `prefix_of` l2 → x ∈ l1 → x ∈ l2.
Proof. intros [k ->] Hx. apply elem_of_app. by left. Qed.

(** the planned addresses are among the selected ones *)
Lemma elem_of_urls_to_download self all_urls (u : string) :
  u ∈ urls_to_download list_of_set self all_urls →
  u ∈ unique_urls list_of_set self all_urls.
Proof.
  intros Hu. eapply elem_of_prefix in Hu; [|apply urls_to_download_prefix].
  by rewrite sorted_reverse_perm in Hu.
Qed.

End PlanContents.

Section PlanProperties.

Variable list_of_set : list string → list string.
Implicit Types (self : PinterestImageScraper) (all_urls : list (string * bool)).

(** Every planned address is the address of a collected candidate,
    provided that listing a set yields only its elements. *)
Theorem plan_from_candidates self all_urls (u : string) :
  (∀ (l : list string) (x : string), x ∈ list_of_set l → x ∈ l) →
  u ∈ urls_to_download list_of_set self all_urls →
  ∃ flag : bool, (u, flag) ∈ all_urls.
Proof.
  intros Hset Hu. apply elem_of_urls_to_download in Hu.
  unfold unique_urls in Hu.
  assert (u ∈ relevant_urls all_urls ∨ u ∈ other_urls all_urls) as [H|H].
  { destruct (is_ad_search self).
    - apply Hset in Hu. by apply elem_of_app in Hu.
    - destruct (_ <=? _); [by left|].
      apply elem_of_app in Hu as [?|Hu]; [by left|right].
      eapply elem_of_prefix; [apply slice_to_prefix|done]. }
  - exists true. by apply elem_of_relevant_urls.
  - exists false. by apply elem_of_other_urls.
Qed.

(** Outside ad mode, when the relevant candidates alone reach the
    limit, only relevant candidates are planned. *)
Theorem plan_only_relevant self all_urls (u : string) :
  is_ad_search self = false →
  limit self ≤ Z.of_nat (length (relevant_urls all_urls)) →
  u ∈ urls_to_download list_of_set self all_urls →
  (u, true) ∈ all_urls.
Proof.
  intros Had Hl Hu. apply elem_of_urls_to_download in Hu.
  unfold unique_urls in Hu. rewrite Had in Hu.
  assert ((limit self <=? Z.of_nat (length (relevant_urls all_urls))) = true) as Hle
    by (by apply Z.leb_le).
  rewrite Hle in Hu. by apply elem_of_relevant_urls.
Qed.

(** Outside ad mode, when the relevant candidates do not reach the
    limit, every one of them is planned: none is displaced by a
    candidate that is not relevant. *)
Theorem plan_keeps_relevant self all_urls (u : string) :
  is_ad_search self = false →
  Z.of_nat (length (relevant_urls all_urls)) < limit self →
  (u, true) ∈ all_urls →
  u ∈ urls_to_download list_of_set self all_urls.
Proof.
  intros Had Hl Hu. apply elem_of_relevant_urls in Hu.
  unfold urls_to_download, unique_urls. rewrite Had.
  assert ((limit self <=? Z.of_nat (length (relevant_urls all_urls))) = false) as ->
    by (apply Z.leb_gt; lia).
  assert ((limit self =? 0) = false) as -> by (apply Z.eqb_neq; lia).
  cbn [negb].
  set (sel := relevant_urls all_urls ++ slice_to (other_urls all_urls) _).
  assert (u ∈ sel) as Hsel by (apply elem_of_app; by left).
  assert (Z.of_nat (length sel) ≤ limit self) as Hlen.
  { unfold sel. rewrite length_app, Nat2Z.inj_add, slice_to_length_nonneg by lia. lia. }
  destruct sel as [|x sel'] eqn:E; [by apply elem_of_nil in Hsel|].
  rewrite <- E in *. rewrite slice_to_all by (by rewrite sorted_reverse_length).
  by rewrite sorted_reverse_perm.
Qed.

(** In ad mode the plan holds no address twice, provided that listing
    a set yields no element twice. *)
Theorem plan_ad_mode_no_duplicates self all_urls :
  is_ad_search self = true →
  (∀ l : list string, NoDup (list_of_set l)) →
  NoDup (urls_to_download list_of_set self all_urls).
Proof.
  intros Had Hnd.
  destruct (urls_to_download_prefix list_of_set self all_urls) as [k Hk].
  assert (NoDup (sorted_reverse get_url_priority (unique_urls list_of_set self all_urls)))
    as Hs.
  { rewrite sorted_reverse_perm. unfold unique_urls. rewrite Had. apply Hnd. }
  rewrite Hk in Hs. by apply NoDup_app in Hs as [? _].
Qed.

End PlanProperties.

Lemma first_occurrences_elem_of (l : list string) (x : string) :
  x ∈ first_occurrences l → x ∈ l.
Proof. unfold first_occurrences. by rewrite elem_of_remove_dups. Qed.

Lemma plan_from_candidates_witness :
  ∃ flag : bool, ("https://i.pinimg.com/a.jpg", flag) ∈ one_and_five.
Proof.
  apply (plan_from_candidates first_occurrences cats_limit_3 one_and_five).
  - apply first_occurrences_elem_of.
  - by_evaluation.
Defined.

Lemma plan_only_relevant_witness :
  ("https://i.pinimg.com/originals/a.jpg", true) ∈ one_and_one.
Proof.
  apply (plan_only_relevant first_occurrences cats_limit_1 one_and_one).
  - vm_compute; reflexivity.
  - vm_compute. discriminate.
  - by_evaluation.
Defined.

Lemma plan_keeps_relevant_witness :
  "https://i.pinimg.com/originals/r.jpg"
  ∈ urls_to_download first_occurrences cats_limit_3 one_and_five.
Proof.
  apply plan_keeps_relevant.
  - vm_compute; reflexivity.
  - vm_compute; reflexivity.
  - by_evaluation.
Defined.

Lemma plan_ad_mode_no_duplicates_witness :
  NoDup (urls_to_download first_occurrences ads one_and_five).
Proof.
  apply plan_ad_mode_no_duplicates.
  - vm_compute; reflexivity.
  - intros l. apply NoDup_remove_dups.
Defined.

(** ** [_download_image] and the download loop *)

Section DownloadProperties.

Implicit Types (self : PinterestImageScraper) (env : FetchEnv)
               (filepath : string) (disk : gset string).

Lemma download_result_independent self env filepath disk (n : Z) disk' :
  (_download_image (set_downloaded_count self n) env filepath disk').1
  = (_download_image self env filepath disk).1.
Proof.
  unfold _download_image. cbn [min_width min_height set_downloaded_count].
  destruct (goto env) as [| |st ct]; [done..|].
  destruct (negb (st =? 200)); [done|].
  destruct (negb (startswith ct "image/")); [done|].
  destruct (negb (body_ok env)); [done|].
  destruct (decode_memory env) as [[w h]|].
  - destruct ((w <? _) && (h <? _)); [done|].
    destruct (write env); [|done..].
    destruct (decode_file env) as [[w' h']|]; [|done].
    by destruct ((w' <? _) && (h' <? _)).
  - destruct (write env); [|done..].
    destruct (decode_file env) as [[w' h']|]; [|done].
    by destruct ((w' <? _) && (h' <? _)).
Qed.

(** The download loop adds to [downloaded_count] exactly the number of
    downloads that returned [True]; the counter never decreases and
    grows by at most the number of planned downloads. *)
Theorem run_downloads_count self (jobs : list Job) disk :
  downloaded_count (run_downloads self jobs disk).1
  = downloaded_count self
    + Z.of_nat (length (filter (λ j, job_succeeds self j = true) jobs))
  ∧ downloaded_count self ≤ downloaded_count (run_downloads self jobs disk).1
    ≤ downloaded_count self + Z.of_nat (length jobs).
Proof.
  assert (downloaded_count (run_downloads self jobs disk).1
          = downloaded_count self
            + Z.of_nat (length (filter (λ j, job_succeeds self j = true) jobs))) as E.
  { revert self disk. induction jobs as [|j jobs IH]; intros self disk.
    - cbn. lia.
    - cbn [run_downloads].
      destruct (_download_image self (job_env j) (job_path j) disk) as [res disk1] eqn:Hd.
      rewrite filter_cons.
      assert (job_succeeds self j = res) as Hres.
      { unfold job_succeeds.
        rewrite <- (download_result_independent self _ _ ∅ 0 ∅).
        rewrite (download_result_independent self _ _ disk 0 ∅).
        by rewrite Hd. }
      destruct res.
      + rewrite IH. cbn [downloaded_count set_downloaded_count].
        rewrite decide_True by done. cbn [length].
        assert (∀ j', job_succeeds (set_downloaded_count self (downloaded_count self + 1)) j'
                      = job_succeeds self j') as Hsame.
        { intros j'. unfold job_succeeds. apply download_result_independent. }
        erewrite (list_filter_iff _ (λ j', job_succeeds self j' = true));
          [lia|]. intros j'. by rewrite Hsame.
      + rewrite IH. rewrite decide_False by (rewrite Hres; done). done. }
  split; [exact E|]. rewrite E.
  pose proof (length_filter (λ j, job_succeeds self j = true) jobs). lia.
Qed.

(** One download touches no file but its own destination, in all three
    scrapers. *)
Theorem download_touches_only_destination self (ps : PinterestScraper.t)
    (bs : PinterestBoardScraper.t) env filepath disk (other : string) :
  other ≠ filepath →
  (other ∈ (_download_image self env filepath disk).2 ↔ other ∈ disk)
  ∧ (other ∈ (PinterestScraper._download_image ps env filepath disk).2 ↔ other ∈ disk)
  ∧ (other ∈ (PinterestBoardScraper._download_image bs env filepath disk).2
     ↔ other ∈ disk).
Proof.
  intros Hne.
  assert (other ∈ {[ filepath ]} ∪ disk ↔ other ∈ disk) as Hadd.
  { rewrite elem_of_union, elem_of_singleton. tauto. }
  assert (other ∈ ({[ filepath ]} ∪ disk) ∖ {[ filepath ]} ↔ other ∈ disk) as Hdel.
  { rewrite elem_of_difference, elem_of_singleton. tauto. }
  split_and!.
  - unfold _download_image.
    destruct (goto env) as [| |st ct]; [done..|].
    destruct (negb (st =? 200)); [done|].
    destruct (negb (startswith ct "image/")); [done|].
    destruct (negb (body_ok env)); [done|].
    destruct (match decode_memory env with Some _ => _ | None => _ end); [done|].
    destruct (write env); [|done..].
    destruct (decode_file env) as [[w' h']|]; [|done].
    destruct ((w' <? _) && (h' <? _)); [|done]. by destruct (remove_ok env).
  - unfold PinterestScraper._download_image.
    destruct (goto env) as [| |st ct]; [done..|].
    destruct (negb (st =? 200)); [done|].
    destruct (negb (body_ok env)); [done|].
    destruct (write env); [|done..].
    destruct (decode_file env) as [[w' h']|]; [|done].
    destruct ((w' <? _) || (h' <? _)); [|done]. by destruct (remove_ok env).
  - unfold PinterestBoardScraper._download_image.
    destruct (goto env) as [| |st ct]; [done..|].
    destruct (negb (st =? 200)); [done|].
    destruct (negb (body_ok env)); [done|].
    destruct (write env); [|done..].
    destruct (decode_file env) as [[w' h']|]; [|done].
    destruct ((w' <? _) || (h' <? _)); [|done]. by destruct (remove_ok env).
Qed.

End DownloadProperties.

Lemma download_touches_only_destination_witness :
  "notes.txt" ∈ (_download_image cats (world "image/jpeg" (Some (1000, 500)))
                   cats_000 {[ "notes.txt" ]}).2
  ↔ "notes.txt" ∈ ({[ "notes.txt" ]} : gset string).
Proof.
  refine (proj1 (download_touches_only_destination cats search_scraper board_scraper
                   (world "image/jpeg" (Some (1000, 500))) cats_000 {[ "notes.txt" ]}
                   "notes.txt" _)).
  discriminate.
Defined.

Section DownloadOutcomes.

Implicit Types (self : PinterestImageScraper) (env : FetchEnv)
               (filepath : string) (disk : gset string).

(** [PinterestScraper] and [PinterestBoardScraper] return [True] only
    for an image that was fetched with status 200, stored, decoded from
    the stored file and found to meet both floors; its file is then on
    disk. *)
Theorem strict_download_true (ps : PinterestScraper.t) (bs : PinterestBoardScraper.t)
    env filepath disk :
  ((PinterestScraper._download_image ps env filepath disk).1 = true →
   filepath ∈ (PinterestScraper._download_image ps env filepath disk).2
   ∧ ∃ content_type w h,
       goto env = GotoResponse 200 content_type
       ∧ decode_file env = Some (w, h)
       ∧ PinterestScraper.min_width ps ≤ w
       ∧ PinterestScraper.min_height ps ≤ h)
  ∧ ((PinterestBoardScraper._download_image bs env filepath disk).1 = true →
     filepath ∈ (PinterestBoardScraper._download_image bs env filepath disk).2
     ∧ ∃ content_type w h,
         goto env = GotoResponse 200 content_type
         ∧ decode_file env = Some (w, h)
         ∧ PinterestBoardScraper.min_width bs ≤ w
         ∧ PinterestBoardScraper.min_height bs ≤ h).
Proof.
  assert (filepath ∈ ({[ filepath ]} ∪ disk : gset string)) as Hin.
  { apply elem_of_union. left. by apply elem_of_singleton. }
  split.
  - intros Ht. split; [|by eapply search_download_true].
    revert Ht. unfold PinterestScraper._download_image.
    destruct (goto env) as [| |st ct]; [done..|].
    destruct (negb (st =? 200)); [done|].
    destruct (negb (body_ok env)); [done|].
    destruct (write env); [|done..].
    destruct (decode_file env) as [[w h]|]; [|done].
    by destruct ((w <? _) || (h <? _)).
  - intros Ht. split; [|by eapply board_download_true].
    revert Ht. unfold PinterestBoardScraper._download_image.
    destruct (goto env) as [| |st ct]; [done..|].
    destruct (negb (st =? 200)); [done|].
    destruct (negb (body_ok env)); [done|].
    destruct (write env); [|done..].
    destruct (decode_file env) as [[w h]|]; [|done].
    by destruct ((w <? _) || (h <? _)).
Qed.

(** When nothing raises, [PinterestImageScraper] returns [True] only
    for a response with status 200 and an image content type whose
    stored file measures at least one of the two floors. *)
Theorem download_true_without_exceptions self env filepath disk
    (st : Z) (content_type : string) (w h : Z) :
  goto env = GotoResponse st content_type →
  body_ok env = true →
  write env = WriteOk →
  decode_file env = Some (w, h) →
  (_download_image self env filepath disk).1 = true →
  st = 200 ∧ startswith content_type "image/" = true
  ∧ (min_width self ≤ w ∨ min_height self ≤ h)
  ∧ filepath ∈ (_download_image self env filepath disk).2.
Proof.
  intros Hg Hb Hw Hf. unfold _download_image. rewrite Hg, Hb, Hw, Hf.
  destruct (st =? 200) eqn:Hst; [|done]. apply Z.eqb_eq in Hst.
  destruct (startswith content_type "image/"); [|done]. cbn [negb].
  destruct (match decode_memory env with Some _ => _ | None => _ end); [done|].
  destruct ((w <? min_width self) && (h <? min_height self)) eqn:Hs; [done|].
  intros _. split_and!; [done..| |].
  - apply andb_false_iff in Hs as [Hs|Hs]; apply Z.ltb_ge in Hs; auto.
  - apply elem_of_union. left. by apply elem_of_singleton.
Qed.

(** A download that [PinterestImageScraper] rejects leaves no new file
    behind, as long as deleting works. *)
Theorem download_false_leaves_no_file self env filepath disk :
  remove_ok env = true →
  (_download_image self env filepath disk).1 = false →
  (_download_image self env filepath disk).2 ⊆ disk.
Proof.
  intros Hr. unfold _download_image. rewrite Hr.
  destruct (goto env) as [| |st ct]; [done..|].
  destruct (negb (st =? 200)); [done|].
  destruct (negb (startswith ct "image/")); [done|].
  destruct (negb (body_ok env)); [done|].
  destruct (match decode_memory env with Some _ => _ | None => _ end); [done|].
  destruct (write env); [|done..].
  destruct (decode_file env) as [[w h]|]; [|done].
  destruct ((w <? _) && (h <? _)); [|done]. intros _. cbn.
  intros p [Hp Hn]%elem_of_difference.
  apply elem_of_union in Hp as [Hp|Hp]; done.
Qed.

(** A fetch that yields no response, or a status other than 200, makes
    every scraper return [False] without writing anything. *)
Theorem download_bad_status self (ps : PinterestScraper.t)
    (bs : PinterestBoardScraper.t) env filepath disk :
  goto env = GotoNone
  ∨ (∃ st content_type, goto env = GotoResponse st content_type ∧ st ≠ 200) →
  _download_image self env filepath disk = (false, disk)
  ∧ PinterestScraper._download_image ps env filepath disk = (false, disk)
  ∧ PinterestBoardScraper._download_image bs env filepath disk = (false, disk).
Proof.
  unfold _download_image, PinterestScraper._download_image,
    PinterestBoardScraper._download_image.
  intros [->|(st & ct & -> & Hst)]; [done|].
  apply Z.eqb_neq in Hst. by rewrite Hst.
Qed.

End DownloadOutcomes.

Lemma strict_download_true_witness :
  cats_000 ∈ (PinterestScraper._download_image search_scraper
                (world "image/jpeg" (Some (1000, 900))) cats_000 ∅).2
  ∧ ∃ content_type w h,
      goto (world "image/jpeg" (Some (1000, 900))) = GotoResponse 200 content_type
      ∧ decode_file (world "image/jpeg" (Some (1000, 900))) = Some (w, h)
      ∧ PinterestScraper.min_width search_scraper ≤ w
      ∧ PinterestScraper.min_height search_scraper ≤ h.
Proof.
  apply (proj1 (strict_download_true search_scraper board_scraper
                  (world "image/jpeg" (Some (1000, 900))) cats_000 ∅)).
  vm_compute; reflexivity.
Defined.

Lemma download_true_without_exceptions_witness :
  200 = 200 ∧ startswith "image/jpeg" "image/" = true
  ∧ (min_width cats ≤ 1000 ∨ min_height cats ≤ 500)
  ∧ cats_000 ∈ (_download_image cats (world "image/jpeg" (Some (1000, 500)))
                  cats_000 ∅).2.
Proof.
  apply (download_true_without_exceptions cats
           (world "image/jpeg" (Some (1000, 500))) cats_000 ∅ 200 "image/jpeg" 1000 500).
  - vm_compute; reflexivity.
  - vm_compute; reflexivity.
  - vm_compute; reflexivity.
  - vm_compute; reflexivity.
  - vm_compute; reflexivity.
Defined.

Lemma download_false_leaves_no_file_witness :
  (_download_image cats (world "image/jpeg" (Some (300, 200))) cats_000 ∅).2 ⊆ ∅.
Proof.
  apply download_false_leaves_no_file.
  - vm_compute; reflexivity.
  - vm_compute; reflexivity.
Defined.

Lemma download_bad_status_witness :
  _download_image cats world_not_found cats_000 ∅ = (false, ∅)
  ∧ PinterestScraper._download_image search_scraper world_not_found cats_000 ∅
    = (false, ∅)
  ∧ PinterestBoardScraper._download_image board_scraper world_not_found cats_000 ∅
    = (false, ∅).
Proof.
  apply download_bad_status. right. exists 404, "text/html". split.
  - vm_compute; reflexivity.
  - discriminate.
Defined.

(** ** The handler of [PinterestScraper] and [PinterestBoardScraper] *)

Section SimpleCollector.

Implicit Types (r : Response) (urls : gset string) (u : string).

Lemma fold_metadata_elem_of (min_width min_height : Z)
    (l : list (string * Z * Z)) urls u :
  u ∈ foldl (λ urls '(u, width, height),
               if (min_width <=? width) && (min_height <=? height)
               then {[ replace u backslash EmptyString ]} ∪ urls
               else urls) urls l →
  u ∈ urls
  ∨ ∃ raw width height,
      (raw, width, height) ∈ l ∧ min_width ≤ width ∧ min_height ≤ height
      ∧ u = replace raw backslash EmptyString.
Proof.
  revert urls. induction l as [|[[raw w] h] l IH]; intros urls Hu; [by left|].
  cbn [foldl] in Hu. apply IH in Hu as [Hu|(raw' & w' & h' & Hin & ? & ? & ?)].
  - destruct ((min_width <=? w) && (min_height <=? h)) eqn:Hc; [|by left].
    apply elem_of_union in Hu as [Hu|Hu]; [|by left].
    apply elem_of_singleton in Hu. apply andb_true_iff in Hc as [Hw Hh].
    apply Z.leb_le in Hw, Hh. right. exists raw, w, h.
    split_and!; [apply list_elem_of_here|done..].
  - right. exists raw', w', h'. split_and!; [by apply list_elem_of_further|done..].
Qed.

Lemma fold_metadata_subseteq (min_width min_height : Z)
    (l : list (string * Z * Z)) urls :
  urls ⊆ foldl (λ urls '(u, width, height),
                  if (min_width <=? width) && (min_height <=? height)
                  then {[ replace u backslash EmptyString ]} ∪ urls
                  else urls) urls l.
Proof.
  revert urls. induction l as [|[[raw w] h] l IH]; intros urls; [done|].
  cbn [foldl]. etrans; [|apply IH].
  destruct (_ && _); [apply union_subseteq_r|done].
Qed.

(** what the shared handler adds, and that it only adds *)
Lemma collect_originals_spec (min_width min_height limit : Z) urls r :
  urls ⊆ collect_originals min_width min_height limit urls r
  ∧ ∀ u, u ∈ collect_originals min_width min_height limit urls r →
         u ∈ urls
         ∨ (kept_image r ∧ u = url r)
         ∨ ∃ raw, admitted_metadata min_width min_height r raw
                  ∧ u = replace raw backslash EmptyString.
Proof.
  unfold collect_originals.
  destruct (negb (limit =? 0) && _); [by split; [|left]|].
  set (urls1 := if String.eqb (resource_type r) "image" && (status r =? 200) then _ else _).
  assert (urls ⊆ urls1 ∧ ∀ u, u ∈ urls1 → u ∈ urls ∨ (kept_image r ∧ u = url r))
    as [Hsub Hnew].
  { unfold urls1.
    destruct (String.eqb (resource_type r) "image" && (status r =? 200)) eqn:Hi;
      [|by split; [|left]].
    destruct (_ && str_in "/originals/" (url r)) eqn:Hk; [|by split; [|left]].
    split; [apply union_subseteq_r|].
    intros u [Hu|Hu]%elem_of_union; [|by left].
    apply elem_of_singleton in Hu. right. split; [|done].
    apply andb_true_iff in Hi as [Hrt Hst]. apply andb_true_iff in Hk as [He Ho].
    apply String.eqb_eq in Hrt. apply Z.eqb_eq in Hst. by repeat split. }
  destruct (String.eqb (resource_type r) "xhr" || String.eqb (resource_type r) "fetch");
    [|split; [done|]; intros u Hu; destruct (Hnew u Hu); auto].
  destruct (text r) as [t|] eqn:Ht;
    [|split; [done|]; intros u Hu; destruct (Hnew u Hu); auto].
  destruct (_ && str_in OriginalRegex.key_height t);
    [|split; [done|]; intros u Hu; destruct (Hnew u Hu); auto].
  split; [etrans; [exact Hsub|apply fold_metadata_subseteq]|].
  intros u Hu. apply fold_metadata_elem_of in Hu as [Hu|(raw & w & h & Hin & Hw & Hh & ->)].
  - destruct (Hnew u Hu); auto.
  - right. right. exists raw. split; [|done]. exists t, w, h. done.
Qed.

(** removing the backslashes leaves none *)
Lemma replace_backslash_none (s : string) :
  str_in backslash (replace s backslash EmptyString) = false.
Proof.
  unfold replace. induction s as [|c s IH]; [done|].
  cbn [replace_from]. destruct (startswith (String c s) backslash) eqn:Hs.
  - cbn [backslash String.length Nat.pred]. by rewrite append_nil.
  - cbn [str_in]. rewrite IH, orb_false_r.
    cbn [startswith backslash] in *. destruct (Ascii.eqb _ c); [|done].
    by rewrite startswith_empty in Hs.
Qed.

End SimpleCollector.

Section SimpleCollectorProperties.

Implicit Types (ps : PinterestScraper.t) (bs : PinterestBoardScraper.t)
               (r : Response) (u : string).

Lemma collect_originals_not_metadata (min_width min_height limit : Z)
    (urls : gset string) r u :
  resource_type r ≠ "xhr" → resource_type r ≠ "fetch" →
  u ∈ collect_originals min_width min_height limit urls r →
  u ∈ urls ∨ (kept_image r ∧ u = url r).
Proof.
  intros Hx Hf Hu.
  destruct (collect_originals_spec min_width min_height limit urls r) as [_ Hspec].
  destruct (Hspec u Hu) as [?|[?|(raw & _ & _)]]; [by left|by right|].
  revert Hu. unfold collect_originals.
  destruct (negb (limit =? 0) && _); [by left|].
  apply String.eqb_neq in Hx, Hf. rewrite Hx, Hf. cbn [orb].
  destruct (String.eqb (resource_type r) "image" && (status r =? 200)) eqn:Hi; [|by left].
  destruct (_ && str_in "/originals/" (url r)) eqn:Hk; [|by left].
  intros [Hu|Hu]%elem_of_union; [|by left].
  apply elem_of_singleton in Hu. right. split; [|done].
  apply andb_true_iff in Hi as [Hrt Hst]. apply andb_true_iff in Hk as [He Ho].
  apply String.eqb_eq in Hrt. apply Z.eqb_eq in Hst. by repeat split.
Qed.

(** From a response that is neither [xhr] nor [fetch], both scrapers
    keep at most its own address, and only if it is an image response
    with status 200 whose address ends in [.jpg], [.jpeg] or [.png] and
    carries the originals marker. *)
Theorem simple_handler_keeps_originals ps bs r u :
  resource_type r ≠ "xhr" → resource_type r ≠ "fetch" →
  (u ∈ PinterestScraper.image_urls (search_handle_response ps r) →
   u ∈ PinterestScraper.image_urls ps ∨ (kept_image r ∧ u = url r))
  ∧ (u ∈ PinterestBoardScraper.image_urls (board_handle_response bs r) →
     u ∈ PinterestBoardScraper.image_urls bs ∨ (kept_image r ∧ u = url r)).
Proof.
  intros Hx Hf. split; intros Hu.
  - exact (collect_originals_not_metadata (PinterestScraper.min_width ps)
             (PinterestScraper.min_height ps) (PinterestScraper.limit ps)
             (PinterestScraper.image_urls ps) r u Hx Hf Hu).
  - exact (collect_originals_not_metadata (PinterestBoardScraper.min_width bs)
             (PinterestBoardScraper.min_height bs) (PinterestBoardScraper.limit bs)
             (PinterestBoardScraper.image_urls bs) r u Hx Hf Hu).
Qed.

(** Every address that both scrapers take from the metadata of a
    response was announced there with a width and a height that both
    meet the configured floors; it is stored with its backslashes
    removed. *)
Theorem simple_handler_metadata ps bs r u :
  ¬ kept_image r →
  (u ∈ PinterestScraper.image_urls (search_handle_response ps r) →
   u ∈ PinterestScraper.image_urls ps
   ∨ (str_in backslash u = false
      ∧ ∃ raw, admitted_metadata (PinterestScraper.min_width ps)
                 (PinterestScraper.min_height ps) r raw
               ∧ u = replace raw backslash EmptyString))
  ∧ (u ∈ PinterestBoardScraper.image_urls (board_handle_response bs r) →
     u ∈ PinterestBoardScraper.image_urls bs
     ∨ (str_in backslash u = false
        ∧ ∃ raw, admitted_metadata (PinterestBoardScraper.min_width bs)
                   (PinterestBoardScraper.min_height bs) r raw
                 ∧ u = replace raw backslash EmptyString)).
Proof.
  intros Hk. split; intros Hu.
  - destruct (collect_originals_spec (PinterestScraper.min_width ps)
                (PinterestScraper.min_height ps) (PinterestScraper.limit ps)
                (PinterestScraper.image_urls ps) r) as [_ Hspec].
    destruct (Hspec u Hu) as [?|[[? _]|(raw & Hraw & ->)]]; [by left|done|].
    right. split; [apply replace_backslash_none|by exists raw].
  - destruct (collect_originals_spec (PinterestBoardScraper.min_width bs)
                (PinterestBoardScraper.min_height bs) (PinterestBoardScraper.limit bs)
                (PinterestBoardScraper.image_urls bs) r) as [_ Hspec].
    destruct (Hspec u Hu) as [?|[[? _]|(raw & Hraw & ->)]]; [by left|done|].
    right. split; [apply replace_backslash_none|by exists raw].
Qed.

(** Through any stream of observations the address sets of both
    scrapers only grow, and their floors and limit stay as configured. *)
Theorem simple_handler_accumulates ps bs (rs : list Response) :
  (PinterestScraper.image_urls ps ⊆ PinterestScraper.image_urls (search_handle_all ps rs)
   ∧ PinterestScraper.min_width (search_handle_all ps rs) = PinterestScraper.min_width ps
   ∧ PinterestScraper.min_height (search_handle_all ps rs) = PinterestScraper.min_height ps
   ∧ PinterestScraper.limit (search_handle_all ps rs) = PinterestScraper.limit ps)
  ∧ (PinterestBoardScraper.image_urls bs
       ⊆ PinterestBoardScraper.image_urls (board_handle_all bs rs)
     ∧ PinterestBoardScraper.min_width (board_handle_all bs rs)
       = PinterestBoardScraper.min_width bs
     ∧ PinterestBoardScraper.min_height (board_handle_all bs rs)
       = PinterestBoardScraper.min_height bs
     ∧ PinterestBoardScraper.limit (board_handle_all bs rs)
       = PinterestBoardScraper.limit bs).
Proof.
  split.
  - unfold search_handle_all. revert ps. induction rs as [|r rs IH]; intros ps; [done|].
    cbn [foldl]. destruct (IH (search_handle_response ps r)) as (Hs & Hw & Hh & Hl).
    split_and!; [|done..]. etrans; [|exact Hs].
    apply collect_originals_spec.
  - unfold board_handle_all. revert bs. induction rs as [|r rs IH]; intros bs; [done|].
    cbn [foldl]. destruct (IH (board_handle_response bs r)) as (Hs & Hw & Hh & Hl).
    split_and!; [|done..]. etrans; [|exact Hs].
    apply collect_originals_spec.
Qed.

Lemma collect_originals_image_size (min_width min_height limit : Z)
    (urls : gset string) r :
  resource_type r = "image" → 0 < limit →
  Z.of_nat (size urls) ≤ limit →
  Z.of_nat (size (collect_originals min_width min_height limit urls r)) ≤ limit.
Proof.
  intros Hr Hl Hs. unfold collect_originals. rewrite Hr.
  destruct (negb (limit =? 0) && (limit <=? Z.of_nat (size urls))) eqn:Hc; [done|].
  assert (Z.of_nat (size urls) < limit) as Hlt.
  { apply andb_false_iff in Hc as [Hc|Hc].
    - apply negb_false_iff, Z.eqb_eq in Hc. lia.
    - by apply Z.leb_gt. }
  cbn [String.eqb Ascii.eqb Bool.eqb orb andb].
  destruct (status r =? 200); [|done].
  destruct (_ && str_in "/originals/" (url r)); [|done].
  rewrite size_union_alt, size_singleton.
  assert (size (urls ∖ {[ url r ]}) ≤ size urls)%nat; [|lia].
  apply subseteq_size. intros x Hx. by apply elem_of_difference in Hx as [? _].
Qed.

(** With a positive limit, image responses alone never take the address
    set of either scraper beyond the limit. *)
Theorem simple_handler_image_ceiling ps bs (rs : list Response) :
  Forall (λ r, resource_type r = "image") rs →
  (0 < PinterestScraper.limit ps →
   Z.of_nat (size (PinterestScraper.image_urls ps)) ≤ PinterestScraper.limit ps →
   Z.of_nat (size (PinterestScraper.image_urls (search_handle_all ps rs)))
   ≤ PinterestScraper.limit ps)
  ∧ (0 < PinterestBoardScraper.limit bs →
     Z.of_nat (size (PinterestBoardScraper.image_urls bs)) ≤ PinterestBoardScraper.limit bs →
     Z.of_nat (size (PinterestBoardScraper.image_urls (board_handle_all bs rs)))
     ≤ PinterestBoardScraper.limit bs).
Proof.
  intros Hrs. split.
  - unfold search_handle_all. revert ps.
    induction Hrs as [|r rs Hr Hrs IH]; intros ps Hl Hs; [done|].
    cbn [foldl].
    change (PinterestScraper.limit ps)
      with (PinterestScraper.limit (search_handle_response ps r)).
    apply IH; [done|]. by apply collect_originals_image_size.
  - unfold board_handle_all. revert bs.
    induction Hrs as [|r rs Hr Hrs IH]; intros bs Hl Hs; [done|].
    cbn [foldl].
    change (PinterestBoardScraper.limit bs)
      with (PinterestBoardScraper.limit (board_handle_response bs r)).
    apply IH; [done|]. by apply collect_originals_image_size.
Qed.

End SimpleCollectorProperties.

Lemma simple_handler_keeps_originals_witness :
  picture_originals ∈ PinterestScraper.image_urls search_scraper
  ∨ (kept_image (image_response picture_originals)
     ∧ picture_originals = url (image_response picture_originals)).
Proof.
  apply (proj1 (simple_handler_keeps_originals search_scraper board_scraper
                  (image_response picture_originals) picture_originals
                  ltac:(discriminate) ltac:(discriminate))).
  by_evaluation.
Defined.

Lemma simple_handler_metadata_witness :
  "https://i.pinimg.com/originals/aa/big.jpg" ∈ PinterestScraper.image_urls search_scraper
  ∨ (str_in backslash "https://i.pinimg.com/originals/aa/big.jpg" = false
     ∧ ∃ raw, admitted_metadata (PinterestScraper.min_width search_scraper)
                (PinterestScraper.min_height search_scraper) metadata_response raw
              ∧ "https://i.pinimg.com/originals/aa/big.jpg"
                = replace raw backslash EmptyString).
Proof.
  apply (proj1 (simple_handler_metadata search_scraper board_scraper
                  metadata_response "https://i.pinimg.com/originals/aa/big.jpg"
                  ltac:(by intros [? _]))).
  by_evaluation.
Defined.

Lemma simple_handler_image_ceiling_witness :
  Z.of_nat (size (PinterestScraper.image_urls
     (search_handle_all search_scraper_limit_1
        [image_response picture_originals;
         image_response "https://i.pinimg.com/originals/aa/big.jpg"])))
  ≤ PinterestScraper.limit search_scraper_limit_1.
Proof.
  apply (proj1 (simple_handler_image_ceiling search_scraper_limit_1 board_scraper
                  [image_response picture_originals;
                   image_response "https://i.pinimg.com/originals/aa/big.jpg"]
                  ltac:(by repeat constructor))).
  - vm_compute; reflexivity.
  - vm_compute. discriminate.
Defined.

(** ** [__init__]: names *)

Section Names.

Implicit Types (s t : string).

Lemma str_in_slash_cons (c : ascii) s :
  str_in "/" (String c s) = Ascii.eqb "/" c || str_in "/" s.
Proof. cbn [str_in startswith]. destruct (Ascii.eqb "/" c); by rewrite ?startswith_empty. Qed.




Lemma rstrip_slash_no_slash s : str_in "/" s = false → rstrip_slash s = s.
Proof.
  induction s as [|c s IH]; [done|]. rewrite str_in_slash_cons.
  intros [Hc Hs]%orb_false_iff. cbn [rstrip_slash].
  rewrite Ascii.eqb_sym, Hc. cbn [andb]. by rewrite IH.
Qed.

Lemma rstrip_slash_append_keep s t :
  t ≠ EmptyString → rstrip_slash t = t → rstrip_slash (s +:+ t) = s +:+ t.
Proof.
  intros Hne Ht. induction s as [|c s IH]; [by rewrite append_nil|].
  rewrite append_cons. cbn [rstrip_slash]. rewrite IH.
  destruct (s +:+ t) eqn:E.
  - destruct s; [by rewrite append_nil in E|by rewrite append_cons in E].
  - by rewrite andb_false_r.
Qed.

Lemma rstrip_slash_slashes t : all_slashes t = true → rstrip_slash t = EmptyString.
Proof.
  induction t as [|c t IH]; [done|]. cbn [all_slashes rstrip_slash].
  intros [Hc Ht]%andb_true_iff. by rewrite IH, Hc.
Qed.

Lemma rstrip_slash_append_slashes s t :
  s ≠ EmptyString → rstrip_slash s = s → all_slashes t = true →
  rstrip_slash (s +:+ t) = s.
Proof.
  intros Hne Hs Ht. induction s as [|c s IH]; [done|].
  rewrite append_cons. cbn [rstrip_slash] in *.
  destruct (Ascii.eqb c "/" && String.eqb (rstrip_slash s) EmptyString) eqn:Hc; [done|].
  injection Hs as Hs.
  destruct s as [|d s].
  - rewrite append_nil, rstrip_slash_slashes by done.
    cbn [rstrip_slash] in Hc. by rewrite Hc.
  - rewrite IH by done. rewrite Hs in Hc. by rewrite Hc.
Qed.

Lemma last_segment_after_slash s t :
  str_in "/" t = false → last_segment (s +:+ "/" +:+ t) = t.
Proof.
  intros Ht. induction s as [|c s IH].
  - rewrite append_nil. change ("/" +:+ t) with (String "/" t).
    cbn [last_segment]. by rewrite Ht.
  - rewrite append_cons. cbn [last_segment].
    assert (str_in "/" (s +:+ "/" +:+ t) = true) as ->; [|done].
    apply str_in_append_r. by apply str_in_append_l.
Qed.

(** The name of a board run is the last path segment of the board
    address, whether or not the address ends in slashes. *)
Theorem board_name_last_segment (base name slashes : string) :
  name ≠ EmptyString →
  str_in "/" name = false →
  all_slashes slashes = true →
  run_name (base +:+ "/" +:+ name +:+ slashes) true = name.
Proof.
  intros Hne Hn Hs. unfold run_name.
  assert (base +:+ "/" +:+ name +:+ slashes
          = (base +:+ String "/" name) +:+ slashes) as ->
    by (by rewrite append_assoc).
  rewrite rstrip_slash_append_slashes.
  - exact (last_segment_after_slash base name Hn).
  - destruct base; [by rewrite append_nil|by rewrite append_cons].
  - apply rstrip_slash_append_keep; [done|].
    cbn [rstrip_slash]. rewrite rstrip_slash_no_slash by done.
    destruct name; [done|]. by rewrite andb_false_r.
  - done.
Qed.

End Names.

Lemma board_name_last_segment_witness :
  run_name ("https://www.pinterest.com/someone" +:+ "/" +:+ "my-board" +:+ "//") true
  = "my-board".
Proof.
  apply board_name_last_segment.
  - discriminate.
  - vm_compute; reflexivity.
  - vm_compute; reflexivity.
Defined.

(** ** Ad mode and pin identifiers *)

Section AdModeAndPins.

Implicit Types (self : PinterestImageScraper) (s t u : string).

Lemma startswith_prefix s (p q : string) :
  startswith s (p +:+ q) = true → startswith s p = true.
Proof.
  revert s. induction p as [|c p IH]; intros s; [by rewrite startswith_empty|].
  rewrite append_cons. destruct s as [|d s]; [done|]. cbn [startswith].
  destruct (Ascii.eqb c d); [apply IH|done].
Qed.

Lemma str_in_prefix s (p q : string) :
  str_in (p +:+ q) s = true → str_in p s = true.
Proof.
  induction s as [|c s IH]; cbn [str_in].
  - rewrite !orb_false_r. apply startswith_prefix.
  - intros [H|H]%orb_true_iff; apply orb_true_iff; [left|right; auto].
    by eapply startswith_prefix.
Qed.

(** Ad mode is switched on exactly when the lower-cased target contains
    the two letters [ad]; the tests for [ads] and [advert] add nothing. *)
Theorem is_ad_search_iff (target0 : string) (is_board0 : bool) :
  is_ad_search (new_scraper target0 is_board0) = str_in "ad" (lower target0).
Proof.
  cbn [is_ad_search new_scraper].
  destruct (str_in "ad" (lower target0)) eqn:Had; [done|]. cbn [orb].
  destruct (str_in "ads" (lower target0)) eqn:Hads.
  { apply (str_in_prefix _ "ad" "s") in Hads. congruence. }
  destruct (str_in "advert" (lower target0)) eqn:Hadv; [|done].
  apply (str_in_prefix _ "ad" "vert") in Hadv. congruence.
Qed.

Lemma startswith_take (n : nat) s : startswith s (str_take n s) = true.
Proof.
  revert n. induction s as [|c s IH]; intros [|n]; cbn; try done.
  by rewrite Ascii.eqb_refl.
Qed.

Lemma str_in_drop (k : nat) (p s : string) :
  str_in p (str_drop k s) = true → str_in p s = true.
Proof.
  revert s. induction k as [|k IH]; intros s; [done|].
  destruct s as [|c s]; [done|]. cbn [str_drop]. intros H.
  apply str_in_cons. auto.
Qed.

Lemma pin_here_spec s (pin_id : string) :
  pin_here s = Some pin_id →
  pin_id ≠ EmptyString ∧ all_digits pin_id = true ∧ str_in pin_id s = true.
Proof.
  unfold pin_here. destruct (startswith s "/pin/"); [|done].
  destruct (0 <? _)%nat eqn:Hd; [|done]. apply Nat.ltb_lt in Hd. intros [= <-].
  split_and!.
  - by apply take_digits_nonempty.
  - apply take_digits_all_digits.
  - apply (str_in_drop 5). apply str_in_here, startswith_take.
Qed.

Lemma pin_search_spec s (pin_id : string) :
  pin_search s = Some pin_id →
  pin_id ≠ EmptyString ∧ all_digits pin_id = true ∧ str_in pin_id s = true.
Proof.
  induction s as [|c s IH]; cbn [pin_search].
  - destruct (pin_here EmptyString) eqn:E; [|done]. intros [= ->]. by apply pin_here_spec.
  - destruct (pin_here (String c s)) eqn:E.
    + intros [= ->]. by apply pin_here_spec.
    + intros H. destruct (IH H) as (? & ? & ?). split_and!; [done..|].
      by apply str_in_cons.
Qed.

(** Once a pin has been opened and the address of the page names it,
    every image whose address contains that identifier is classified as
    relevant; the identifier is a non-empty string of digits taken from
    the page address. *)
Theorem opened_pin_makes_relevant self (current_url pin_id : string) u :
  pin_search current_url = Some pin_id →
  str_in pin_id u = true →
  is_relevant (note_opened_pin self current_url) u = true
  ∧ pin_id ∈ relevant_image_ids (note_opened_pin self current_url)
  ∧ pin_id ≠ EmptyString ∧ all_digits pin_id = true
  ∧ str_in pin_id current_url = true.
Proof.
  intros Hp Hu. destruct (pin_search_spec _ _ Hp) as (Hne & Hd & Hin).
  unfold note_opened_pin. rewrite Hp.
  assert (pin_id ∈ ({[ pin_id ]} ∪ relevant_image_ids self : gset string)) as Hmem.
  { apply elem_of_union. left. by apply elem_of_singleton. }
  split_and!; [|done..].
  unfold is_relevant. cbn [relevant_image_ids set_relevant_image_ids].
  assert (existsb (λ p, str_in p u)
            (elements ({[ pin_id ]} ∪ relevant_image_ids self)) = true) as ->.
  { apply existsb_exists. exists pin_id. split; [|done].
    apply list_elem_of_In. by apply elem_of_elements. }
  by rewrite orb_true_r.
Qed.

(** Harvesting the links of the results page only adds identifiers,
    and each one it adds is a non-empty string of digits found after
    [/pin/] in one of the links. *)
Theorem note_pin_links_ids self (hrefs : list (option string)) :
  relevant_image_ids self ⊆ relevant_image_ids (note_pin_links self hrefs)
  ∧ ∀ pin_id, pin_id ∈ relevant_image_ids (note_pin_links self hrefs) →
      pin_id ∈ relevant_image_ids self
      ∨ ∃ h, Some h ∈ hrefs ∧ pin_search h = Some pin_id
             ∧ pin_id ≠ EmptyString ∧ all_digits pin_id = true.
Proof.
  unfold note_pin_links. revert self.
  induction hrefs as [|href hrefs IH]; intros self; [by split; [|left]|].
  cbn [foldl].
  set (self1 := match href with Some h => _ | None => self end).
  assert (relevant_image_ids self ⊆ relevant_image_ids self1
          ∧ ∀ pin_id, pin_id ∈ relevant_image_ids self1 →
              pin_id ∈ relevant_image_ids self
              ∨ ∃ h, href = Some h ∧ pin_search h = Some pin_id
                     ∧ pin_id ≠ EmptyString ∧ all_digits pin_id = true) as [Hs1 Hn1].
  { unfold self1. destruct href as [h|]; [|by split; [|left]].
    destruct (_ && _); [|by split; [|left]].
    unfold note_opened_pin. destruct (pin_search h) as [p|] eqn:Hp; [|by split; [|left]].
    cbn [relevant_image_ids set_relevant_image_ids]. split; [apply union_subseteq_r|].
    intros pin_id [Hx|Hx]%elem_of_union; [|by left].
    apply elem_of_singleton in Hx as ->. right. exists h.
    destruct (pin_search_spec _ _ Hp) as (? & ? & _). done. }
  destruct (IH self1) as [Hs Hn]. split; [by etrans|].
  intros pin_id Hx. destruct (Hn pin_id Hx) as [Hx1|(h & Hh & ? & ? & ?)].
  - destruct (Hn1 pin_id Hx1) as [?|(h & -> & ? & ? & ?)]; [by left|].
    right. exists h. split_and!; [apply list_elem_of_here|done..].
  - right. exists h. split_and!; [by apply list_elem_of_further|done..].
Qed.

End AdModeAndPins.

Lemma opened_pin_makes_relevant_witness :
  is_relevant (note_opened_pin cats_inside "https://www.pinterest.com/pin/1234567/")
    picture_474 = true
  ∧ "1234567" ∈ relevant_image_ids
                  (note_opened_pin cats_inside "https://www.pinterest.com/pin/1234567/")
  ∧ "1234567" ≠ EmptyString ∧ all_digits "1234567" = true
  ∧ str_in "1234567" "https://www.pinterest.com/pin/1234567/" = true.
Proof.
  refine (opened_pin_makes_relevant cats_inside
            "https://www.pinterest.com/pin/1234567/" "1234567" picture_474 _ _).
  - vm_compute; reflexivity.
  - vm_compute; reflexivity.
Defined.

Lemma note_pin_links_ids_witness :
  "45" ∈ relevant_image_ids cats_inside
  ∨ ∃ h, Some h ∈ [Some "/pin/123/"; None; Some "a/pin/45"]
         ∧ pin_search h = Some "45" ∧ "45" ≠ EmptyString ∧ all_digits "45" = true.
Proof.
  refine (proj2 (note_pin_links_ids cats_inside
                   [Some "/pin/123/"; None; Some "a/pin/45"]) "45" _).
  by_evaluation.
Defined.
